(** * lingvo/core/base_decoder.py: the common decoder interface

    A shallow embedding of [BaseDecoder] and [BaseBeamSearchDecoder].

    The module is a thin layer of glue: every method either raises, returns
    an argument, assigns a handful of attributes, or hands its arguments to
    code that lives elsewhere (the base layer, the beam-search helper, the
    target-sequence sampler, the concrete decoder that overrides the abstract
    methods).  The embedding therefore keeps three things explicit:

    - the Python values and the object store (attributes are read and
      assigned in a heap of objects, so aliasing between the parameter
      objects is visible);
    - exceptions (a method returns a value or raises);
    - every call that leaves this module, as an event answered by a handler
      the theorems quantify over. *)

From Stdlib Require Import ZArith String List.
From stdpp Require Import base option list gmap strings.

Local Open Scope Z_scope.
Local Open Scope string_scope.

(** ** Python values and objects *)

(** Objects live in a store and are named by their address. *)
Abbreviation loc := nat (only parsing).

(** A type object: its qualified name, as [%s] prints it; the names of the
    classes it derives from, itself included; and the attribute names whose
    lookup on the type ends in code outside this module (the methods a
    concrete decoder overrides or adds, the ones the base layer provides,
    the methods of a helper class). *)
Record PyType : Type := mkType {
  ty_name : string;
  ty_mro : list string;
  ty_methods : list string
}.

#[local] Set Warnings "-register-all".

Inductive PyVal : Type :=
| VNone
| VBool (b : bool)
| VInt (n : Z)
| VStr (s : string)
| VTuple (items : list PyVal)
| VClass (t : PyType)
| VRef (l : loc)
| VBound (l : loc) (name : string).

(** An object: its type and its instance dictionary. *)
Record Obj : Type := mkObj {
  ob_type : PyType;
  ob_attrs : gmap string PyVal
}.

Abbreviation Heap := (gmap loc Obj).

(** [DecoderOutput = collections.namedtuple('DecoderOutput',
    ['metrics', 'predictions', 'per_sequence'])]. *)
Record DecoderOutput : Type := mkDecoderOutput {
  metrics : PyVal;
  predictions : PyVal;
  per_sequence : PyVal
}.

(** ** Exceptions *)

Inductive ExnKind : Type :=
| NotImplementedError
| AttributeError
| TypeError
| ValueError
| OtherError (name : string).

Record Exn : Type := mkExn {
  exn_kind : ExnKind;
  exn_msg : string
}.

Inductive Res (A : Type) : Type :=
| Ok (a : A)
| Err (e : Exn).
Arguments Ok {A} a.
Arguments Err {A} e.

(** ** Calls that leave the module *)

Inductive Ext : Type :=
| ECall (f : PyVal) (args : list PyVal)
    (* f(args), f a callable whose body is not in this module *)
| ESuper (cls : string) (self : PyVal) (name : string) (args : list PyVal)
    (* super(cls, self).name(args), resolved above this module *)
| EStatic (path : string) (args : list PyVal)
    (* path(args), path a dotted name of another module *)
| EIter (v : PyVal).
    (* the items of an object with its own iterator *)

(** ** Programs *)

Inductive Prog (A : Type) : Type :=
| Ret (a : A)
| Raise (e : Exn)
| GetHeap (k : Heap -> Prog A)
| SetAttr (l : loc) (name : string) (v : PyVal) (k : Prog A)
| Call (e : Ext) (k : PyVal -> Prog A).
Arguments Ret {A} a.
Arguments Raise {A} e.
Arguments GetHeap {A} k.
Arguments SetAttr {A} l name v k.
Arguments Call {A} e k.

Fixpoint bind {A B : Type} (p : Prog A) (f : A -> Prog B) : Prog B :=
  match p with
  | Ret a => f a
  | Raise e => Raise e
  | GetHeap k => GetHeap (fun hp => bind (k hp) f)
  | SetAttr l name v k => SetAttr l name v (bind k f)
  | Call e k => Call e (fun r => bind (k r) f)
  end.

#[export] Instance Prog_ret : MRet Prog := fun _ a => Ret a.
#[export] Instance Prog_bind : MBind Prog := fun _ _ f p => bind p f.

(** ** The object store *)

(** The instance dictionary entry [name] of the object at [l]. *)
Definition field (hp : Heap) (l : loc) (name : string) : option PyVal :=
  match hp !! l with
  | Some o => ob_attrs o !! name
  | None => None
  end.

(** [o.name = v] on the object at [l]. *)
Definition write (hp : Heap) (l : loc) (name : string) (v : PyVal) : Heap :=
  alter (fun o => mkObj (ob_type o) (<[name := v]> (ob_attrs o))) l hp.

(** What the expression [v.name] evaluates to: the instance dictionary
    first, then a method of the type, bound to the object.  [None] stands
    for the lookup that finds nothing. *)
Definition lookup_attr (hp : Heap) (v : PyVal) (name : string) : option PyVal :=
  match v with
  | VRef l =>
      match hp !! l with
      | Some o =>
          match ob_attrs o !! name with
          | Some x => Some x
          | None =>
              if bool_decide (name ∈ ty_methods (ob_type o))
              then Some (VBound l name) else None
          end
      | None => None
      end
  | _ => None
  end.

(** [isinstance(v, cls)] for a class [cls] of this module. *)
Definition is_instance (hp : Heap) (v : PyVal) (cls : string) : bool :=
  match v with
  | VRef l =>
      match hp !! l with
      | Some o => bool_decide (cls ∈ ty_mro (ob_type o))
      | None => false
      end
  | _ => false
  end.

(** The name of [type(v)]. *)
Definition type_name (hp : Heap) (v : PyVal) : string :=
  match v with
  | VNone => "NoneType"
  | VBool _ => "bool"
  | VInt _ => "int"
  | VStr _ => "str"
  | VTuple _ => "tuple"
  | VClass _ => "type"
  | VBound _ _ => "method"
  | VRef l =>
      match hp !! l with
      | Some o => ty_name (ob_type o)
      | None => "object"
      end
  end.

(** [str(type(v))], the text [%s] substitutes for a type object. *)
Definition type_str (hp : Heap) (v : PyVal) : string :=
  "<class '" ++ type_name hp v ++ "'>".

(** ** Statement forms *)

Definition raise {A : Type} (k : ExnKind) (msg : string) : Prog A :=
  Raise (mkExn k msg).

(** [v.name] *)
Definition getattr (v : PyVal) (name : string) : Prog PyVal :=
  GetHeap (fun hp =>
    match lookup_attr hp v name with
    | Some x => Ret x
    | None => raise AttributeError name
    end).

(** [v.name = x] *)
Definition setattr (v : PyVal) (name : string) (x : PyVal) : Prog unit :=
  match v with
  | VRef l =>
      GetHeap (fun hp =>
        match hp !! l with
        | Some _ => SetAttr l name x (Ret tt)
        | None => raise AttributeError name
        end)
  | _ => raise AttributeError name
  end.

(** [v.name(args)] for a method this module does not define. *)
Definition call_method (v : PyVal) (name : string) (args : list PyVal) : Prog PyVal :=
  f ← getattr v name; Call (ECall f args) Ret.

(** [self.name] for a method this module defines in class [owner]: an
    entry of the instance dictionary or a definition outside the module
    shadows it ([Some f]); otherwise the module's own body is meant ([None]),
    provided [self] is an instance of [owner]. *)
Definition resolve (owner : string) (self : PyVal) (name : string)
    : Prog (option PyVal) :=
  GetHeap (fun hp =>
    match lookup_attr hp self name with
    | Some f => Ret (Some f)
    | None =>
        if is_instance hp self owner then Ret None
        else raise AttributeError name
    end).

(** The call of a resolved method: [base] is the body this module gives. *)
Definition invoke (m : option PyVal) (args : list PyVal) (base : Prog PyVal)
    : Prog PyVal :=
  match m with
  | Some f => Call (ECall f args) Ret
  | None => base
  end.

(** [self.name(args)], the arguments being plain values. *)
Definition dispatch (owner : string) (self : PyVal) (name : string)
    (args : list PyVal) (base : Prog PyVal) : Prog PyVal :=
  m ← resolve owner self name; invoke m args base.

(** The items of a value a tuple assignment takes apart: those of a tuple
    are its own; a string or an object is asked for them (what a string
    yields, bytes or code points, is the interpreter's matter). *)
Definition items_of (v : PyVal) : Prog (list PyVal) :=
  match v with
  | VTuple l => Ret l
  | VStr _ | VRef _ =>
      Call (EIter v) (fun r =>
        match r with
        | VTuple l => Ret l
        | _ => raise TypeError "iter() returned non-iterator"
        end)
  | _ => GetHeap (fun hp =>
      raise TypeError ("cannot unpack non-iterable " ++ type_name hp v ++ " object"))
  end.

(** [a, b = v] *)
Definition unpack2 (v : PyVal) : Prog (PyVal * PyVal) :=
  l ← items_of v;
  match l with
  | [a; b] => Ret (a, b)
  | [] => raise ValueError "not enough values to unpack (expected 2, got 0)"
  | [_] => raise ValueError "not enough values to unpack (expected 2, got 1)"
  | _ => raise ValueError "too many values to unpack (expected 2)"
  end.

(** A parameter with a default value. *)
Definition arg_default (d : PyVal) (a : option PyVal) : PyVal :=
  match a with
  | Some v => v
  | None => d
  end.

(** ** Running a program *)

(** The world a call runs in: the object store, and whatever else the code
    outside this module keeps. *)
Record World (X : Type) : Type := mkWorld {
  heap : Heap;
  ext : X
}.
Arguments mkWorld {X} heap ext.
Arguments heap {X} w.
Arguments ext {X} w.

(** The code outside the module: it answers a call with a value or an
    exception, and may change the world as it likes. *)
Definition Handler (X : Type) : Type := Ext -> World X -> Res PyVal * World X.

(** What a run of the module's own code does, in order: the calls it makes
    (with their answers) and the attributes it assigns. *)
Inductive Event : Type :=
| EvCall (e : Ext) (r : Res PyVal)
| EvSet (l : loc) (name : string) (v : PyVal).

Definition Outcome (X A : Type) : Type := Res A * World X * list Event.

Fixpoint run {X A : Type} (h : Handler X) (p : Prog A) (w : World X)
    : Outcome X A :=
  match p with
  | Ret a => (Ok a, w, [])
  | Raise e => (Err e, w, [])
  | GetHeap k => run h (k (heap w)) w
  | SetAttr l name v k =>
      let '(r, w', t) := run h k (mkWorld (write (heap w) l name v) (ext w)) in
      (r, w', EvSet l name v :: t)
  | Call e k =>
      match h e w with
      | (Ok v, w1) =>
          let '(r, w2, t) := run h (k v) w1 in
          (r, w2, EvCall e (Ok v) :: t)
      | (Err x, w1) => (Err x, w1, [EvCall e (Err x)])
      end
  end.

(** The calls and the assignments of a trace. *)
Definition calls (t : list Event) : list (Ext * Res PyVal) :=
  omap (fun ev => match ev with EvCall e r => Some (e, r) | _ => None end) t.

Definition writes (t : list Event) : list (loc * string * PyVal) :=
  omap (fun ev => match ev with EvSet l a v => Some (l, a, v) | _ => None end) t.

(** ** class BaseDecoder(base_layer.BaseLayer) *)

Module BaseDecoder.

Definition qualname : string := "BaseDecoder".

(** [Params(cls)]: the base layer's parameters with [packed_input]
    defined on them. *)
Definition Params (cls : PyVal) : Prog PyVal :=
  p ← Call (ESuper qualname cls "Params" []) Ret;
  _ ← call_method p "Define"
        [VStr "packed_input"; VBool false;
         VStr ("If True, decoder and all layers support " ++
               "multiple examples in a single sequence.")];
  Ret p.

(** [UpdateTargetVocabSize(cls, p, vocab_size, wpm_model=None)] *)
Definition UpdateTargetVocabSize (cls p vocab_size : PyVal)
    (wpm_model : option PyVal) : Prog PyVal :=
  let wpm_model := arg_default VNone wpm_model in
  raise NotImplementedError "Abstract method".

(** [ComputePredictions(self, theta, encoder_outputs, targets)] *)
Definition ComputePredictions (self theta encoder_outputs targets : PyVal)
    : Prog PyVal :=
  GetHeap (fun hp =>
    raise NotImplementedError ("Abstract method: " ++ type_str hp self)).

(** [ComputeLoss(self, theta, predictions, targets)] *)
Definition ComputeLoss (self theta predictions targets : PyVal)
    : Prog PyVal :=
  GetHeap (fun hp =>
    raise NotImplementedError ("Abstract method: " ++ type_str hp self)).

(** [FProp(self, theta, encoder_outputs, targets)] *)
Definition FProp (self theta encoder_outputs targets : PyVal)
    : Prog DecoderOutput :=
  predictions ← dispatch qualname self "ComputePredictions"
                  [theta; encoder_outputs; targets]
                  (ComputePredictions self theta encoder_outputs targets);
  loss ← dispatch qualname self "ComputeLoss"
           [theta; predictions; targets]
           (ComputeLoss self theta predictions targets);
  '(metrics, per_sequence) ← unpack2 loss;
  Ret (mkDecoderOutput metrics predictions per_sequence).

End BaseDecoder.

(** ** class BaseBeamSearchDecoder(BaseDecoder) *)

Module BaseBeamSearchDecoder.

Definition qualname : string := "BaseBeamSearchDecoder".

(** What follows the class [c] in a method resolution order. *)
Fixpoint after (c : string) (mro : list string) : option (list string) :=
  match mro with
  | [] => None
  | x :: rest => if String.eqb x c then Some rest else after c rest
  end.

(** [super(BaseBeamSearchDecoder, cls).Params()]: the search starts at the
    class that follows [BaseBeamSearchDecoder] in the resolution order of
    [cls].  When that class is [BaseDecoder], the call is
    [BaseDecoder.Params(cls)]; when other classes stand in between, the call
    goes to them, outside this module (whether to a [Params] of theirs or,
    through them, on to [BaseDecoder]); a [cls] that does not derive from
    [BaseBeamSearchDecoder] is refused. *)
Definition super_Params (cls : PyVal) : Prog PyVal :=
  match cls with
  | VClass t =>
      match after qualname (ty_mro t) with
      | Some (next :: _) =>
          if String.eqb next BaseDecoder.qualname
          then BaseDecoder.Params cls
          else Call (ESuper qualname cls "Params" []) Ret
      | Some [] => raise AttributeError "Params"
      | None =>
          raise TypeError
            "super(type, obj): obj must be an instance or subtype of type"
      end
  | _ =>
      raise TypeError
        "super(type, obj): obj must be an instance or subtype of type"
  end.

(** [Params(cls)] *)
Definition Params (cls : PyVal) : Prog PyVal :=
  p ← super_Params cls;
  _ ← call_method p "Define"
        [VStr "target_sos_id"; VInt 1;
         VStr "Id of the target sequence sos symbol."];
  _ ← call_method p "Define"
        [VStr "target_eos_id"; VInt 2;
         VStr "Id of the target sequence eos symbol."];
  _ ← call_method p "Define"
        [VStr "target_seq_len"; VInt 0; VStr "Target seq length."];
  define ← getattr p "Define";
  bs ← Call (EStatic "beam_search_helper.BeamSearchHelper.Params" []) Ret;
  _ ← Call (ECall define
              [VStr "beam_search"; bs; VStr "BeamSearchHelper params."]) Ret;
  define ← getattr p "Define";
  ts ← Call (EStatic
               "target_sequence_sampler.TargetSequenceSampler.Params" []) Ret;
  _ ← Call (ECall define
              [VStr "target_sequence_sampler"; ts;
               VStr "TargetSequenceSampler params."]) Ret;
  Ret p.

(** [UpdateTargetVocabSize(cls, p, vocab_size, wpm_model=None)] *)
Definition UpdateTargetVocabSize (cls p vocab_size : PyVal)
    (wpm_model : option PyVal) : Prog PyVal :=
  let wpm_model := arg_default VNone wpm_model in
  raise NotImplementedError "Abstract method".

(** [p.child.name = p.name]: the right-hand side is evaluated first. *)
Definition copy_down (p : PyVal) (child name : string) : Prog unit :=
  v ← getattr p name;
  c ← getattr p child;
  setattr c name v.

(** [__init__(self, params)], the body the decorator
    [base_layer.initializer] wraps. *)
Definition __init__ (self params : PyVal) : Prog PyVal :=
  _ ← Call (ESuper qualname self "__init__" [params]) Ret;
  p ← getattr self "params";
  _ ← copy_down p "beam_search" "target_seq_len";
  _ ← copy_down p "beam_search" "target_sos_id";
  _ ← copy_down p "beam_search" "target_eos_id";
  create ← getattr self "CreateChild";
  bs ← getattr p "beam_search";
  _ ← Call (ECall create [VStr "beam_search"; bs]) Ret;
  _ ← copy_down p "target_sequence_sampler" "target_seq_len";
  _ ← copy_down p "target_sequence_sampler" "target_sos_id";
  _ ← copy_down p "target_sequence_sampler" "target_eos_id";
  create ← getattr self "CreateChild";
  ts ← getattr p "target_sequence_sampler";
  _ ← Call (ECall create [VStr "target_sequence_sampler"; ts]) Ret;
  Ret VNone.

(** [AddExtraDecodingInfo(self, encoder_outputs, targets)] *)
Definition AddExtraDecodingInfo (self encoder_outputs targets : PyVal)
    : Prog PyVal :=
  Ret encoder_outputs.

(** [BeamSearchDecodeWithTheta(self, theta, encoder_outputs,
    num_hyps_per_beam_override=0)] *)
Definition BeamSearchDecodeWithTheta (self theta encoder_outputs : PyVal)
    (num_hyps_per_beam_override : option PyVal) : Prog PyVal :=
  let num_hyps_per_beam_override :=
    arg_default (VInt 0) num_hyps_per_beam_override in
  engine ← getattr self "beam_search";
  decode ← getattr engine "BeamSearchDecode";
  init_cb ← getattr self "_InitBeamSearchStateCallback";
  pre_cb ← getattr self "_PreBeamSearchStepCallback";
  post_cb ← getattr self "_PostBeamSearchStepCallback";
  Call (ECall decode
          [theta; encoder_outputs; num_hyps_per_beam_override;
           init_cb; pre_cb; post_cb]) Ret.

(** [BeamSearchDecode(self, encoder_outputs,
    num_hyps_per_beam_override=0)] *)
Definition BeamSearchDecode (self encoder_outputs : PyVal)
    (num_hyps_per_beam_override : option PyVal) : Prog PyVal :=
  let num_hyps_per_beam_override :=
    arg_default (VInt 0) num_hyps_per_beam_override in
  m ← resolve qualname self "BeamSearchDecodeWithTheta";
  theta ← getattr self "theta";
  invoke m [theta; encoder_outputs; num_hyps_per_beam_override]
    (BeamSearchDecodeWithTheta self theta encoder_outputs
       (Some num_hyps_per_beam_override)).

(** [SampleTargetSequences(self, theta, encoder_outputs, random_seed)] *)
Definition SampleTargetSequences
    (self theta encoder_outputs random_seed : PyVal) : Prog PyVal :=
  sampler ← getattr self "target_sequence_sampler";
  sample ← getattr sampler "Sample";
  init_cb ← getattr self "_InitBeamSearchStateCallback";
  pre_cb ← getattr self "_PreBeamSearchStepCallback";
  post_cb ← getattr self "_PostBeamSearchStepCallback";
  Call (ECall sample
          [theta; encoder_outputs; random_seed; init_cb; pre_cb; post_cb])
    Ret.

End BaseBeamSearchDecoder.

(** ** The configuration fields the constructor propagates *)

Definition target_fields : list string :=
  ["target_seq_len"; "target_sos_id"; "target_eos_id"].

Definition config_attrs : list string :=
  "params" :: "beam_search" :: "target_sequence_sampler" :: target_fields.

(** [hp'] still has every attribute among [attrs] that [hp] had, with the
    same value. *)
Definition keeps (attrs : list string) (hp hp' : Heap) : Prop :=
  forall o a v,
    a ∈ attrs -> lookup_attr hp o a = Some v -> lookup_attr hp' o a = Some v.

(** A [CreateChild] (whatever [self.CreateChild] is) that leaves the
    configuration fields of the existing objects alone. *)
Definition frame_CreateChild {X : Type} (h : Handler X) : Prop :=
  forall self f args w,
    lookup_attr (heap w) self "CreateChild" = Some f ->
    keeps config_attrs (heap w) (heap (h (ECall f args) w).2).

(** The same of every call that leaves the module. *)
Definition frame_all {X : Type} (h : Handler X) : Prop :=
  forall e w, keeps config_attrs (heap w) (heap (h e w).2).

(** The base layer's constructor gives the layer, as [self.params],
    parameters that carry the values of the ones it was called with (be
    they the same object or a copy). *)
Definition installs_params {X : Type} (h : Handler X) : Prop :=
  forall cls self params w r w1 q name,
    h (ESuper cls self "__init__" [params]) w = (Ok r, w1) ->
    lookup_attr (heap w1) self "params" = Some q ->
    name ∈ target_fields ->
    lookup_attr (heap w1) q name = lookup_attr (heap w) params name.

(** In [hp], the parameters [p] and their sub-configuration [child] both
    hold [v] as [name]. *)
Definition propagated (hp : Heap) (p : PyVal) (child name : string)
    (v : PyVal) : Prop :=
  lookup_attr hp p name = Some v /\
  exists c, lookup_attr hp p child = Some c /\ lookup_attr hp c name = Some v.

(** Programs that assign no attribute. *)
Inductive NoSet {A : Type} : Prog A -> Prop :=
| NoSet_Ret a : NoSet (Ret a)
| NoSet_Raise e : NoSet (Raise e)
| NoSet_GetHeap k : (forall hp, NoSet (k hp)) -> NoSet (GetHeap k)
| NoSet_Call e k : (forall v, NoSet (k v)) -> NoSet (Call e k).

(** The arguments a call hands over in the callback positions (the fourth
    to the sixth). *)
Definition callbacks_of (e : Ext) : list PyVal :=
  match e with
  | ECall _ args => drop 3 args
  | _ => []
  end.

(** ** The beam-search engine's use of the override *)

(** Modelled from the spec: the hypotheses-per-beam count the beam-search
    engine uses in a call ([beam_search_helper.BeamSearchHelper] is not part
    of this module): "The override parameter, when positive, replaces the
    configured hypotheses-per-beam count for this call only; when zero or
    negative it is ignored." *)
Definition engine_num_hyps_per_beam (configured override : Z) : Z :=
  if (0 <? override)%Z then override else configured.

Definition no_such_callable : Exn :=
  mkExn (OtherError "LookupError") "no such callable".

Section Engine.
Context {X : Type}.

(** The search proper, opaque here: its result from the weights, the
    encoder outputs, the hypotheses-per-beam count and the callbacks. *)
Variable search : PyVal -> PyVal -> Z -> PyVal -> PyVal -> PyVal -> PyVal.

(** Modelled from the spec: [BeamSearchDecode] of the engine at [engine],
    a search with the count [engine_num_hyps_per_beam] gives, that stores
    nothing ("for this call only"). *)
Definition engine_BeamSearchDecode (engine : loc) (args : list PyVal)
    (w : World X) : Res PyVal * World X :=
  match args with
  | [theta; encoder_outputs; VInt override; init_cb; pre_cb; post_cb] =>
      match lookup_attr (heap w) (VRef engine) "params" with
      | Some p =>
          match lookup_attr (heap w) p "num_hyps_per_beam" with
          | Some (VInt configured) =>
              (Ok (search theta encoder_outputs
                     (engine_num_hyps_per_beam configured override)
                     init_cb pre_cb post_cb), w)
          | _ => (Err (mkExn AttributeError "num_hyps_per_beam"), w)
          end
      | None => (Err (mkExn AttributeError "params"), w)
      end
  | _ => (Err (mkExn TypeError "BeamSearchDecode"), w)
  end.

(** An environment in which only the engine answers. *)
Definition spec_engine : Handler X := fun e w =>
  match e with
  | ECall (VBound l name) args =>
      if String.eqb name "BeamSearchDecode"
      then engine_BeamSearchDecode l args w
      else (Err no_such_callable, w)
  | _ => (Err no_such_callable, w)
  end.
End Engine.

(** ** A concrete decoder and its environment *)

Module Toy.

Definition decoder_type : PyType :=
  mkType "toy.ToyDecoder"
    ["ToyDecoder"; "BaseBeamSearchDecoder"; "BaseDecoder"; "BaseLayer"]
    ["CreateChild"; "ComputePredictions"; "ComputeLoss";
     "_InitBeamSearchStateCallback"; "_PreBeamSearchStepCallback";
     "_PostBeamSearchStepCallback"].

(** A decoder class that overrides nothing. *)
Definition abstract_type : PyType :=
  mkType "lingvo.core.base_decoder.BaseBeamSearchDecoder"
    ["BaseBeamSearchDecoder"; "BaseDecoder"; "BaseLayer"]
    ["CreateChild"].

Definition params_type : PyType :=
  mkType "lingvo.core.hyperparams.Params" ["Params"] ["Define"].

Definition map_type : PyType :=
  mkType "lingvo.core.py_utils.NestedMap" ["NestedMap"] [].

Definition helper_type : PyType :=
  mkType "lingvo.core.beam_search_helper.BeamSearchHelper"
    ["BeamSearchHelper"; "BaseLayer"] ["BeamSearchDecode"].

Definition sampler_type : PyType :=
  mkType "lingvo.core.target_sequence_sampler.TargetSequenceSampler"
    ["TargetSequenceSampler"; "BaseLayer"] ["Sample"].

Definition self : PyVal := VRef 1.
Definition params : PyVal := VRef 2.
Definition theta : PyVal := VRef 5.
Definition encoder_outputs : PyVal := VRef 6.
Definition targets : PyVal := VRef 7.
Definition bare : PyVal := VRef 8.

(** The store before the decoder at 1 is constructed from the parameters
    at 2, whose sub-configurations (3 and 4) were given values of their
    own. *)
Definition heap0 : Heap :=
  {[ 1%nat := mkObj decoder_type {[ "theta" := theta ]};
     2%nat := mkObj params_type
                {[ "target_seq_len" := VInt 40;
                   "target_sos_id" := VInt 1;
                   "target_eos_id" := VInt 2;
                   "beam_search" := VRef 3;
                   "target_sequence_sampler" := VRef 4 ]};
     3%nat := mkObj params_type
                {[ "target_seq_len" := VInt 0;
                   "target_sos_id" := VInt 7;
                   "target_eos_id" := VInt 9;
                   "num_hyps_per_beam" := VInt 8 ]};
     4%nat := mkObj params_type
                {[ "target_seq_len" := VInt 0;
                   "target_sos_id" := VInt 1;
                   "target_eos_id" := VInt 2 ]};
     5%nat := mkObj map_type ∅;
     6%nat := mkObj map_type ∅;
     7%nat := mkObj map_type ∅;
     8%nat := mkObj abstract_type {[ "theta" := theta ]} ]}.

Definition world0 : World nat := mkWorld heap0 9%nat.

Definition search (theta encoder_outputs : PyVal) (num_hyps : Z)
    (init_cb pre_cb post_cb : PyVal) : PyVal :=
  VTuple [VStr "BeamSearchDecodeOutput"; encoder_outputs; VInt num_hyps].

(** [CreateChild] allocates the child layer at the next free address and
    registers it under a name not yet taken. *)
Definition create_child (s : loc) (n : string) (ps : PyVal) (w : World nat)
    : Res PyVal * World nat :=
  match lookup_attr (heap w) (VRef s) n, heap w !! ext w with
  | None, None =>
      let ty := if String.eqb n "beam_search" then helper_type
                else sampler_type in
      (Ok VNone,
       mkWorld
         (write (<[ext w := mkObj ty {[ "params" := ps ]}]> (heap w))
            s n (VRef (ext w)))
         (S (ext w)))
  | _, _ => (Err (mkExn (OtherError "AssertionError") "CreateChild"), w)
  end.

(** The base layer keeps the parameters it is given; the engine searches as
    the spec says; the concrete decoder computes predictions and a loss. *)
Definition handler : Handler nat := fun e w =>
  match e with
  | ESuper _ (VRef s) name [p] =>
      if String.eqb name "__init__"
      then (Ok VNone, mkWorld (write (heap w) s "params" p) (ext w))
      else (Err no_such_callable, w)
  | ECall (VBound s name) args =>
      if String.eqb name "CreateChild" then
        match args with
        | [VStr n; ps] => create_child s n ps w
        | _ => (Err (mkExn TypeError "CreateChild"), w)
        end
      else if String.eqb name "BeamSearchDecode" then
        engine_BeamSearchDecode search s args w
      else if String.eqb name "Sample" then
        match args with
        | [_; enc; seed; _; _; _] =>
            (Ok (VTuple [VStr "ids"; enc; seed]), w)
        | _ => (Err (mkExn TypeError "Sample"), w)
        end
      else if String.eqb name "ComputePredictions" then
        match args with
        | [_; enc; _] => (Ok (VTuple [VStr "logits"; enc]), w)
        | _ => (Err (mkExn TypeError "ComputePredictions"), w)
        end
      else if String.eqb name "ComputeLoss" then
        match args with
        | [_; pred; tgt] =>
            (Ok (VTuple [VTuple [VStr "loss"; pred; tgt];
                         VTuple [VStr "per_sequence"; tgt]]), w)
        | _ => (Err (mkExn TypeError "ComputeLoss"), w)
        end
      else (Err no_such_callable, w)
  | _ => (Err no_such_callable, w)
  end.

(** The world once the decoder is constructed, and what the constructor
    did on the way. *)
Definition world1 : World nat :=
  (run handler (BaseBeamSearchDecoder.__init__ self params) world0).1.2.

Definition trace1 : list Event :=
  (run handler (BaseBeamSearchDecoder.__init__ self params) world0).2.

(** The same environment with a base layer that keeps a copy of the
    parameters it is given, their two sub-configurations copied too. *)
Definition copy_of (hp : Heap) (v : PyVal) : Obj :=
  match v with
  | VRef s => default (mkObj params_type ∅) (hp !! s)
  | _ => mkObj params_type ∅
  end.

Definition copying_handler : Handler nat := fun e w =>
  match e with
  | ESuper _ (VRef s) name [p] =>
      if String.eqb name "__init__" then
        let l := ext w in
        let po := copy_of (heap w) p in
        let bo :=
          copy_of (heap w) (default VNone (ob_attrs po !! "beam_search")) in
        let so :=
          copy_of (heap w)
            (default VNone (ob_attrs po !! "target_sequence_sampler")) in
        let po' :=
          mkObj (ob_type po)
            (<["beam_search" := VRef (S l)]>
               (<["target_sequence_sampler" := VRef (S (S l))]>
                  (ob_attrs po))) in
        (Ok VNone,
         mkWorld
           (write (<[l := po']> (<[S l := bo]> (<[S (S l) := so]> (heap w))))
              s "params" (VRef l))
           (S (S (S l))))
      else handler e w
  | _ => handler e w
  end.

Definition world1_copied : World nat :=
  (run copying_handler (BaseBeamSearchDecoder.__init__ self params)
     world0).1.2.

End Toy.

(** ** The operations of the module other than the constructor *)

Inductive operation : forall {A : Type}, Prog A -> Prop :=
| op_Decoder_Params cls :
    operation (BaseDecoder.Params cls)
| op_Decoder_UpdateTargetVocabSize cls p vocab_size wpm_model :
    operation (BaseDecoder.UpdateTargetVocabSize cls p vocab_size wpm_model)
| op_FProp self theta encoder_outputs targets :
    operation (BaseDecoder.FProp self theta encoder_outputs targets)
| op_ComputePredictions self theta encoder_outputs targets :
    operation (BaseDecoder.ComputePredictions self theta encoder_outputs
                 targets)
| op_ComputeLoss self theta predictions targets :
    operation (BaseDecoder.ComputeLoss self theta predictions targets)
| op_Params cls :
    operation (BaseBeamSearchDecoder.Params cls)
| op_UpdateTargetVocabSize cls p vocab_size wpm_model :
    operation (BaseBeamSearchDecoder.UpdateTargetVocabSize cls p vocab_size
                 wpm_model)
| op_AddExtraDecodingInfo self encoder_outputs targets :
    operation (BaseBeamSearchDecoder.AddExtraDecodingInfo self
                 encoder_outputs targets)
| op_BeamSearchDecode self encoder_outputs override :
    operation (BaseBeamSearchDecoder.BeamSearchDecode self encoder_outputs
                 override)
| op_BeamSearchDecodeWithTheta self theta encoder_outputs override :
    operation (BaseBeamSearchDecoder.BeamSearchDecodeWithTheta self theta
                 encoder_outputs override)
| op_SampleTargetSequences self theta encoder_outputs random_seed :
    operation (BaseBeamSearchDecoder.SampleTargetSequences self theta
                 encoder_outputs random_seed).

(** ** What a program may assign, and the worlds its calls are made in *)

(** Programs that assign attributes of the names [names] only. *)
Inductive OnlySets {A : Type} (names : list string) : Prog A -> Prop :=
| OnlySets_Ret a : OnlySets names (Ret a)
| OnlySets_Raise e : OnlySets names (Raise e)
| OnlySets_GetHeap k :
    (forall hp, OnlySets names (k hp)) -> OnlySets names (GetHeap k)
| OnlySets_SetAttr l name v k :
    name ∈ names -> OnlySets names k -> OnlySets names (SetAttr l name v k)
| OnlySets_Call e k :
    (forall v, OnlySets names (k v)) -> OnlySets names (Call e k).



(** ** What the parameter definitions ask of the code outside *)

(** [p.Define(name, default, description)] that returns has given [p] the
    field [name], holding [default]. *)
Definition defines {X : Type} (h : Handler X) : Prop :=
  forall p f name value doc w r w1,
    lookup_attr (heap w) p "Define" = Some f ->
    h (ECall f [VStr name; value; VStr doc]) w = (Ok r, w1) ->
    lookup_attr (heap w1) p name = Some value.

(** Code outside the module that leaves every attribute that is there as it
    is (it may add attributes and objects). *)
Definition monotone {X : Type} (h : Handler X) : Prop :=
  forall e w o a v,
    lookup_attr (heap w) o a = Some v ->
    lookup_attr (heap (h e w).2) o a = Some v.

(** ** An environment for the parameter definitions *)

Module ToyParams.

(** Fresh parameters, at the next free address. *)
Definition fresh_params (attrs : gmap string PyVal) (w : World nat)
    : Res PyVal * World nat :=
  match heap w !! ext w with
  | None =>
      (Ok (VRef (ext w)),
       mkWorld (<[ext w := mkObj Toy.params_type attrs]> (heap w))
         (S (ext w)))
  | Some _ => (Err (mkExn (OtherError "MemoryError") "address taken"), w)
  end.

(** No object has an attribute of its own called [Define], so that
    [p.Define] is the method of the parameters [p]. *)
Definition unshadowed (hp : Heap) : bool :=
  forallb (fun lo => match ob_attrs lo.2 !! "Define" with
                     | None => true
                     | Some _ => false
                     end) (map_to_list hp).

(** The base layer's [Params()] gives parameters with no decoder field; the
    helper classes give theirs; [Define] adds a field that is not there
    yet, to parameters whose [Define] is the method. *)
Definition handler : Handler nat := fun e w =>
  match e with
  | ESuper _ _ name [] =>
      if String.eqb name "Params" then fresh_params ∅ w
      else (Err no_such_callable, w)
  | EStatic _ [] =>
      fresh_params
        {[ "target_seq_len" := VInt 0; "target_sos_id" := VInt 1;
           "target_eos_id" := VInt 2 ]} w
  | ECall (VBound p name) [VStr field_name; value; VStr _] =>
      if String.eqb name "Define" && unshadowed (heap w) then
        match lookup_attr (heap w) (VRef p) field_name, heap w !! p with
        | None, Some _ =>
            (Ok VNone, mkWorld (write (heap w) p field_name value) (ext w))
        | _, _ =>
            (Err (mkExn AttributeError "Parameter is already defined"), w)
        end
      else (Err no_such_callable, w)
  | _ => (Err no_such_callable, w)
  end.

Definition cls : PyVal := VClass Toy.decoder_type.

Definition world0 : World nat := mkWorld ∅ 1%nat.

(** The world once [Params] has returned, and the calls it made. *)
Definition world1 : World nat :=
  (run handler (BaseBeamSearchDecoder.Params cls) world0).1.2.

Definition trace1 : list Event :=
  (run handler (BaseBeamSearchDecoder.Params cls) world0).2.

End ToyParams.

(** ** Environments in which a step fails *)

Module ToyFailures.

(** The environment of [Toy], except that [ComputeLoss] returns [loss]. *)
Definition loss_handler (loss : PyVal) : Handler nat := fun e w =>
  match e with
  | ECall (VBound s name) args =>
      if String.eqb name "ComputeLoss" then (Ok loss, w)
      else Toy.handler e w
  | _ => Toy.handler e w
  end.

(** A decoder class that overrides [ComputePredictions] only. *)
Definition half_type : PyType :=
  mkType "toy.HalfDecoder" ["HalfDecoder"; "BaseDecoder"; "BaseLayer"]
    ["ComputePredictions"].

Definition half_world : World nat :=
  mkWorld {[ 1%nat := mkObj half_type ∅ ]} 2%nat.




End ToyFailures.

(** ** Code outside the module that keeps a state of its own *)



Module Counter.

(** The environment of [Toy], except that the decoder's
    [ComputePredictions], the engine's [BeamSearchDecode] and the sampler's
    [Sample] answer with the number of calls made so far, which they keep
    outside the object store. *)
Definition handler : Handler nat := fun e w =>
  match e with
  | ECall (VBound s name) args =>
      if String.eqb name "ComputePredictions"
         || String.eqb name "BeamSearchDecode"
         || String.eqb name "Sample"
      then (Ok (VInt (Z.of_nat (ext w))), mkWorld (heap w) (S (ext w)))
      else Toy.handler e w
  | _ => Toy.handler e w
  end.

(** The constructed decoder of [Toy], before and after one such call. *)
Definition world1 : World nat := mkWorld (heap Toy.world1) 11%nat.


End Counter.

(** * Properties *)

#[global] Arguments lookup_attr : simpl never.
#[global] Arguments is_instance : simpl never.
#[global] Arguments type_str : simpl never.
#[global] Arguments write : simpl never.

(** ** The interpreter *)

Section Semantics.
Context {X : Type}.
Implicit Types (h : Handler X) (w : World X) (hp : Heap).

Lemma run_bind {A B : Type} h (p : Prog A) (f : A -> Prog B) w :
  run h (p ≫= f) w =
  match run h p w with
  | (Ok a, w1, t1) =>
      let '(r, w2, t2) := run h (f a) w1 in (r, w2, (t1 ++ t2)%list)
  | (Err e, w1, t1) => (Err e, w1, t1)
  end.
Proof.
  unfold mbind, Prog_bind. revert w.
  induction p as [a|e|k IH|l name v k IH|e k IH]; intros w; simpl.
  - destruct (run h (f a) w) as [[r w2] t2]. reflexivity.
  - reflexivity.
  - apply IH.
  - rewrite IH.
    destruct (run h k _) as [[[a|e] w1] t1]; simpl; [|reflexivity].
    destruct (run h (f a) w1) as [[r w2] t2]. reflexivity.
  - destruct (h e w) as [[v|x] w1]; [|reflexivity].
    rewrite IH.
    destruct (run h (k v) w1) as [[[a|e'] w2] t2]; simpl; [|reflexivity].
    destruct (run h (f a) w2) as [[r w3] t3]. reflexivity.
Qed.

(** A sequence that ends normally ran both of its parts to their end. *)
Lemma run_bind_Ok {A B : Type} h (p : Prog A) (f : A -> Prog B) w b w' t :
  run h (p ≫= f) w = (Ok b, w', t) ->
  exists a w1 t1 t2,
    run h p w = (Ok a, w1, t1) /\
    run h (f a) w1 = (Ok b, w', t2) /\
    t = (t1 ++ t2)%list.
Proof.
  rewrite run_bind.
  destruct (run h p w) as [[[a|e] w1] t1]; [|discriminate].
  destruct (run h (f a) w1) as [[r w2] t2] eqn:E2.
  intros [= -> -> <-]. eauto 8.
Qed.

Lemma run_getattr h v name w :
  run h (getattr v name) w =
  match lookup_attr (heap w) v name with
  | Some x => (Ok x, w, [])
  | None => (Err (mkExn AttributeError name), w, [])
  end.
Proof. simpl. destruct (lookup_attr (heap w) v name); reflexivity. Qed.

End Semantics.

(** Membership in a list of attribute names that is written out. *)
Ltac in_list :=
  unfold target_fields, config_attrs; repeat constructor.

Ltac not_in_list :=
  let Hin := fresh "Hin" in
  unfold target_fields; intros Hin;
  repeat (apply elem_of_cons in Hin as [Hin|Hin]; [discriminate|]);
  apply elem_of_nil in Hin; exact Hin.

(** ** The object store *)

Section Store.
Implicit Types (hp : Heap) (o v x : PyVal) (c : loc) (a name : string).

Lemma lookup_attr_write_other hp c name v o a :
  a <> name ->
  lookup_attr (write hp c name v) o a = lookup_attr hp o a.
Proof.
  intros Hne. unfold lookup_attr, write. destruct o; try reflexivity.
  rewrite lookup_alter. case_decide as Hc; [subst l|reflexivity].
  destruct (hp !! c) as [ob|]; simpl; [|reflexivity].
  rewrite lookup_insert_ne by congruence. reflexivity.
Qed.

Lemma lookup_attr_write_hit hp c name v :
  is_Some (hp !! c) ->
  lookup_attr (write hp c name v) (VRef c) name = Some v.
Proof.
  intros [ob Hob]. unfold lookup_attr, write.
  rewrite lookup_alter_eq, Hob. simpl. rewrite lookup_insert_eq.
  reflexivity.
Qed.

(** An assignment leaves what was read before as it was, unless it is the
    assigned attribute of the assigned object. *)
Lemma lookup_attr_write_persist hp c name v o a x :
  lookup_attr hp o a = Some x ->
  (a = name -> x = v) ->
  lookup_attr (write hp c name v) o a = Some x.
Proof.
  intros Hx Hv. destruct (decide (a = name)) as [->|Hne].
  - rewrite (Hv eq_refl) in *. clear Hv.
    unfold lookup_attr, write in *. destruct o; try discriminate.
    rewrite lookup_alter. case_decide as Hc; [subst l|exact Hx].
    destruct (hp !! c) as [ob|]; simpl; [|discriminate].
    rewrite lookup_insert_eq. reflexivity.
  - rewrite lookup_attr_write_other by exact Hne. exact Hx.
Qed.

Lemma keeps_refl attrs hp : keeps attrs hp hp.
Proof. intros o a v _ H. exact H. Qed.

Lemma keeps_trans attrs hp1 hp2 hp3 :
  keeps attrs hp1 hp2 -> keeps attrs hp2 hp3 -> keeps attrs hp1 hp3.
Proof. intros H12 H23 o a v Ha H. apply H23, H12; assumption. Qed.

End Store.

(** ** Programs that assign nothing *)

Section NoSet.
Context {X : Type}.
Implicit Types (h : Handler X) (w : World X).

Lemma NoSet_bind {A B : Type} (p : Prog A) (f : A -> Prog B) :
  NoSet p -> (forall a, NoSet (f a)) -> NoSet (p ≫= f).
Proof.
  intros Hp Hf. unfold mbind, Prog_bind.
  induction Hp as [a|e|k Hk IH|e k Hk IH]; simpl.
  - apply Hf.
  - constructor.
  - constructor. exact IH.
  - constructor. exact IH.
Qed.

Lemma NoSet_getattr v name : NoSet (getattr v name).
Proof.
  constructor. intros hp. destruct (lookup_attr hp v name); constructor.
Qed.

Lemma NoSet_call e : NoSet (Call e Ret).
Proof. constructor. intros v. constructor. Qed.

Lemma NoSet_call_method v name args : NoSet (call_method v name args).
Proof.
  apply NoSet_bind; [apply NoSet_getattr|]. intros f. apply NoSet_call.
Qed.

Lemma NoSet_dispatch owner self name args base :
  NoSet base -> NoSet (dispatch owner self name args base).
Proof.
  intros Hb. apply NoSet_bind.
  - constructor. intros hp. destruct (lookup_attr hp self name).
    + constructor.
    + destruct (is_instance hp self owner); constructor.
  - intros [f|]; simpl; [apply NoSet_call|exact Hb].
Qed.

Lemma NoSet_unpack2 v : NoSet (unpack2 v).
Proof.
  apply NoSet_bind.
  - destruct v; simpl; repeat constructor;
      intros r; destruct r; constructor.
  - intros [|a [|b [|c l]]]; constructor.
Qed.

Lemma NoSet_operation {A : Type} (p : Prog A) : operation p -> NoSet p.
Proof.
  intros Hop. destruct Hop.
  - apply NoSet_bind; [apply NoSet_call|]. intros p.
    apply NoSet_bind; [apply NoSet_call_method|]. intros _. constructor.
  - constructor.
  - apply NoSet_bind; [apply NoSet_dispatch; repeat constructor|].
    intros preds.
    apply NoSet_bind; [apply NoSet_dispatch; repeat constructor|].
    intros loss. apply NoSet_bind; [apply NoSet_unpack2|].
    intros [m ps]. constructor.
  - repeat constructor.
  - repeat constructor.
  - apply NoSet_bind.
    { unfold BaseBeamSearchDecoder.super_Params.
      destruct cls as [| | | | |t| |]; try constructor.
      destruct (BaseBeamSearchDecoder.after _ _) as [[|next rest]|];
        try constructor.
      destruct (String.eqb next _); [|apply NoSet_call].
      apply NoSet_bind; [apply NoSet_call|]. intros p.
      apply NoSet_bind; [apply NoSet_call_method|]. intros _. constructor. }
    intros p.
    do 3 (apply NoSet_bind; [apply NoSet_call_method|]; intros _).
    do 2 (apply NoSet_bind; [apply NoSet_getattr|]; intros ?;
          apply NoSet_bind; [apply NoSet_call|]; intros ?;
          apply NoSet_bind; [apply NoSet_call|]; intros _).
    constructor.
  - constructor.
  - constructor.
  - apply NoSet_bind.
    { constructor. intros hp. destruct (lookup_attr hp self _).
      - constructor.
      - destruct (is_instance hp self _); constructor. }
    intros m. apply NoSet_bind; [apply NoSet_getattr|]. intros th.
    destruct m as [f|]; simpl; [apply NoSet_call|].
    do 5 (apply NoSet_bind; [apply NoSet_getattr|]; intros ?).
    apply NoSet_call.
  - do 5 (apply NoSet_bind; [apply NoSet_getattr|]; intros ?).
    apply NoSet_call.
  - do 5 (apply NoSet_bind; [apply NoSet_getattr|]; intros ?).
    apply NoSet_call.
Qed.

Lemma run_NoSet_writes {A : Type} h (p : Prog A) w :
  NoSet p -> writes (run h p w).2 = [].
Proof.
  intros Hp. revert w.
  induction Hp as [a|e|k Hk IH|e k Hk IH]; intros w; simpl.
  - reflexivity.
  - reflexivity.
  - apply IH.
  - destruct (h e w) as [[v|x] w1]; [|reflexivity].
    specialize (IH v w1). destruct (run h (k v) w1) as [[r w2] t].
    exact IH.
Qed.

Lemma run_NoSet_keeps {A : Type} h (p : Prog A) w :
  NoSet p -> frame_all h ->
  keeps config_attrs (heap w) (heap (run h p w).1.2).
Proof.
  intros Hp Hf. revert w.
  induction Hp as [a|e|k Hk IH|e k Hk IH]; intros w; simpl.
  - apply keeps_refl.
  - apply keeps_refl.
  - apply IH.
  - specialize (Hf e w).
    destruct (h e w) as [[v|x] w1]; [|exact Hf].
    specialize (IH v w1). destruct (run h (k v) w1) as [[r w2] t].
    eapply keeps_trans; [exact Hf|exact IH].
Qed.

End NoSet.

(** ** The constructor *)

Section Constructor.
Context {X : Type}.
Implicit Types (h : Handler X) (w : World X).

Lemma run_getattr_Ok h v name w x w' t :
  run h (getattr v name) w = (Ok x, w', t) ->
  lookup_attr (heap w) v name = Some x /\ w' = w /\ t = [].
Proof.
  rewrite run_getattr. destruct (lookup_attr (heap w) v name); [|discriminate].
  intros [= -> -> <-]. auto.
Qed.

Lemma run_call_Ok h e w x w' t :
  run h (Call e Ret) w = (Ok x, w', t) ->
  h e w = (Ok x, w') /\ t = [EvCall e (Ok x)].
Proof.
  simpl. destruct (h e w) as [[v|y] w1]; [|discriminate].
  intros [= -> -> <-]. auto.
Qed.

Lemma run_copy_down_Ok h p child name w u w' t :
  run h (BaseBeamSearchDecoder.copy_down p child name) w = (Ok u, w', t) ->
  exists v c,
    lookup_attr (heap w) p name = Some v /\
    lookup_attr (heap w) p child = Some (VRef c) /\
    is_Some (heap w !! c) /\
    w' = mkWorld (write (heap w) c name v) (ext w) /\
    t = [EvSet c name v].
Proof.
  unfold BaseBeamSearchDecoder.copy_down. intros Hrun.
  apply run_bind_Ok in Hrun as (v & w1 & t1 & t2 & Hv & Hrun & ->).
  apply run_getattr_Ok in Hv as (Hv & -> & ->).
  apply run_bind_Ok in Hrun as (c & w1 & t1 & t3 & Hc & Hrun & ->).
  apply run_getattr_Ok in Hc as (Hc & -> & ->).
  destruct c; try discriminate. simpl in Hrun.
  destruct (heap w !! l) as [ob|] eqn:Hl; [|discriminate].
  simpl in Hrun. injection Hrun as _ <- <-.
  exists v, l. rewrite Hl. eauto 6.
Qed.

(** What the three assignments [p.child.target_... = p.target_...] leave
    behind: the values [p] had, now also in [p.child]; and everything read
    before that is not a target field holding another value than [p]'s. *)
Lemma run_copy_group_Ok {A : Type} h p child (k : Prog A) w r w' t :
  child ∉ target_fields ->
  run h (_ ← BaseBeamSearchDecoder.copy_down p child "target_seq_len";
         _ ← BaseBeamSearchDecoder.copy_down p child "target_sos_id";
         _ ← BaseBeamSearchDecoder.copy_down p child "target_eos_id";
         k) w = (Ok r, w', t) ->
  exists w2 t2 c,
    run h k w2 = (Ok r, w', t2) /\
    ext w2 = ext w /\
    lookup_attr (heap w) p child = Some (VRef c) /\
    (exists v1 v2 v3,
        t = ([EvSet c "target_seq_len" v1; EvSet c "target_sos_id" v2;
              EvSet c "target_eos_id" v3] ++ t2)%list) /\
    (forall name, name ∈ target_fields ->
       exists v, lookup_attr (heap w) p name = Some v /\
                 propagated (heap w2) p child name v) /\
    (forall o a x,
        lookup_attr (heap w) o a = Some x ->
        (a ∈ target_fields -> lookup_attr (heap w) p a = Some x) ->
        lookup_attr (heap w2) o a = Some x).
Proof.
  intros Hchild Hrun.
  assert (Hc1 : child <> "target_seq_len") by (intros ->; apply Hchild; in_list).
  assert (Hc2 : child <> "target_sos_id") by (intros ->; apply Hchild; in_list).
  assert (Hc3 : child <> "target_eos_id") by (intros ->; apply Hchild; in_list).
  apply run_bind_Ok in Hrun as (u1 & wa & ta & ta' & Ha & Hrun & ->).
  apply run_copy_down_Ok in Ha as (v1 & c & Hv1 & Hc & Hin1 & -> & ->).
  apply run_bind_Ok in Hrun as (u2 & wb & tb & tb' & Hb & Hrun & ->).
  apply run_copy_down_Ok in Hb as (v2 & c2 & Hv2 & Hc' & Hin2 & -> & ->).
  apply run_bind_Ok in Hrun as (u3 & wc & tc & tc' & Hcc & Hrun & ->).
  apply run_copy_down_Ok in Hcc as (v3 & c3 & Hv3 & Hc'' & Hin3 & -> & ->).
  simpl in *.
  (* the sub-configuration is the same object at each assignment *)
  rewrite lookup_attr_write_other in Hc' by exact Hc1.
  assert (c2 = c) by congruence. subst c2.
  rewrite !lookup_attr_write_other in Hc'' by assumption.
  assert (c3 = c) by congruence. subst c3. clear Hc' Hc''.
  (* the values are the ones [p] had at the start *)
  rewrite lookup_attr_write_other in Hv2 by discriminate.
  rewrite !lookup_attr_write_other in Hv3 by discriminate.
  set (hpA := write (heap w) c "target_seq_len" v1) in *.
  set (hpB := write hpA c "target_sos_id" v2) in *.
  set (hpC := write hpB c "target_eos_id" v3) in *.
  assert (Hstable : forall o a x,
             lookup_attr (heap w) o a = Some x ->
             (a ∈ target_fields -> lookup_attr (heap w) p a = Some x) ->
             lookup_attr hpC o a = Some x).
  { intros o a x Hx Hside. unfold hpC, hpB, hpA.
    apply lookup_attr_write_persist;
      [apply lookup_attr_write_persist;
       [apply lookup_attr_write_persist; [exact Hx|]|]|];
      intros ->;
      (assert (Hp : lookup_attr (heap w) p _ = Some x)
         by (apply Hside; in_list));
      congruence. }
  exists (mkWorld hpC (ext w)), tc', c.
  split; [exact Hrun|]. split; [reflexivity|]. split; [exact Hc|].
  split; [exists v1, v2, v3; reflexivity|]. split; [|exact Hstable].
  intros name Hname.
  assert (Hp : forall v, lookup_attr (heap w) p name = Some v ->
               lookup_attr hpC (VRef c) name = Some v ->
               exists v0, lookup_attr (heap w) p name = Some v0 /\
                          propagated hpC p child name v0).
  { intros v Hv Hcv. exists v. split; [exact Hv|]. split.
    - apply Hstable; [exact Hv|]. intros _. exact Hv.
    - exists (VRef c). split; [|exact Hcv].
      apply Hstable; [exact Hc|]. intros Hin. contradiction. }
  apply elem_of_cons in Hname as [->|Hname];
    [|apply elem_of_cons in Hname as [->|Hname];
      [|apply list_elem_of_singleton in Hname as ->]].
  - apply (Hp v1); [exact Hv1|]. unfold hpC, hpB.
    rewrite !lookup_attr_write_other by discriminate.
    apply lookup_attr_write_hit. exact Hin1.
  - apply (Hp v2); [exact Hv2|]. unfold hpC.
    rewrite lookup_attr_write_other by discriminate.
    apply lookup_attr_write_hit. exact Hin2.
  - apply (Hp v3); [exact Hv3|].
    apply lookup_attr_write_hit. exact Hin3.
Qed.

Lemma propagated_keeps hp hp' p child name v :
  keeps config_attrs hp hp' ->
  child ∈ ["beam_search"; "target_sequence_sampler"] ->
  name ∈ target_fields ->
  propagated hp p child name v -> propagated hp' p child name v.
Proof.
  intros Hk Hchild Hname (Hv & c & Hc & Hcv).
  assert (Hn : name ∈ config_attrs).
  { unfold config_attrs. do 3 apply list_elem_of_further. exact Hname. }
  assert (Hch : child ∈ config_attrs).
  { apply elem_of_cons in Hchild as [->|Hchild];
      [|apply list_elem_of_singleton in Hchild as ->];
      unfold config_attrs; repeat constructor. }
  split; [apply Hk; assumption|].
  exists c. split; apply Hk; assumption.
Qed.

(** C2: when the constructor returns, the parameters the decoder holds
    have, in their [beam_search] and in their [target_sequence_sampler]
    sub-configuration, the [target_seq_len], [target_sos_id] and
    [target_eos_id] of the parameters it was constructed from, which are
    their own too (the base layer's constructor installing parameters with
    the values it was given, and [CreateChild] leaving the configuration
    fields alone); and no other operation of the module assigns an
    attribute, so that these fields stay as they are as long as the code
    outside the module leaves them alone. *)
Theorem constructor_propagates h w self params r w' t :
  installs_params h ->
  frame_CreateChild h ->
  run h (BaseBeamSearchDecoder.__init__ self params) w = (Ok r, w', t) ->
  (exists p,
      lookup_attr (heap w') self "params" = Some p /\
      forall name, name ∈ target_fields ->
        exists v,
          lookup_attr (heap w) params name = Some v /\
          propagated (heap w') p "beam_search" name v /\
          propagated (heap w') p "target_sequence_sampler" name v) /\
  (forall (A : Type) (op : Prog A), operation op ->
     forall (h' : Handler X) w0,
       writes (run h' op w0).2 = [] /\
       (frame_all h' ->
        keeps config_attrs (heap w0) (heap (run h' op w0).1.2))).
Proof.
  intros Hinst Hframe Hrun. split.
  2:{ intros A op Hop h' w0. apply NoSet_operation in Hop. split.
      - apply run_NoSet_writes. exact Hop.
      - apply run_NoSet_keeps. exact Hop. }
  unfold BaseBeamSearchDecoder.__init__ in Hrun.
  apply run_bind_Ok in Hrun as (u0 & w1 & t0 & t0' & Hsuper & Hrun & ->).
  apply run_call_Ok in Hsuper as (Hsuper & ->).
  apply run_bind_Ok in Hrun as (p & w1' & t1 & t1' & Hp & Hrun & ->).
  apply run_getattr_Ok in Hp as (Hp & -> & ->).
  apply run_copy_group_Ok in Hrun
    as (w2 & t2 & cb & Hrun & _ & Hcb & _ & Hbs & Hst1);
    [|not_in_list].
  apply run_bind_Ok in Hrun as (cr & w2' & t3 & t3' & Hcr & Hrun & ->).
  apply run_getattr_Ok in Hcr as (Hcr & -> & ->).
  apply run_bind_Ok in Hrun as (bs & w2' & t4 & t4' & Hb & Hrun & ->).
  apply run_getattr_Ok in Hb as (_ & -> & ->).
  apply run_bind_Ok in Hrun as (u1 & w3 & t5 & t5' & Hcall1 & Hrun & ->).
  apply run_call_Ok in Hcall1 as (Hcall1 & ->).
  assert (Hk23 : keeps config_attrs (heap w2) (heap w3)).
  { pose proof (Hframe self cr [VStr "beam_search"; bs] w2 Hcr) as Hk.
    rewrite Hcall1 in Hk. exact Hk. }
  apply run_copy_group_Ok in Hrun
    as (w4 & t6 & ct & Hrun & _ & Hct & _ & Hts & Hst2);
    [|not_in_list].
  apply run_bind_Ok in Hrun as (cr' & w4' & t7 & t7' & Hcr' & Hrun & ->).
  apply run_getattr_Ok in Hcr' as (Hcr' & -> & ->).
  apply run_bind_Ok in Hrun as (ts & w4' & t8 & t8' & Ht & Hrun & ->).
  apply run_getattr_Ok in Ht as (_ & -> & ->).
  apply run_bind_Ok in Hrun as (u2 & w5 & t9 & t9' & Hcall2 & Hrun & ->).
  apply run_call_Ok in Hcall2 as (Hcall2 & ->).
  assert (Hk45 : keeps config_attrs (heap w4) (heap w5)).
  { pose proof (Hframe self cr' [VStr "target_sequence_sampler"; ts] w4 Hcr')
      as Hk.
    rewrite Hcall2 in Hk. exact Hk. }
  simpl in Hrun. injection Hrun as _ <- _.
  assert (Hnt : ("params" ∉ target_fields) /\ ("beam_search" ∉ target_fields))
    by (split; not_in_list).
  destruct Hnt as [Hnt1 Hnt2].
  exists p. split.
  - apply Hk45; [in_list|].
    apply Hst2; [|intros Hin; contradiction].
    apply Hk23; [in_list|].
    apply Hst1; [exact Hp|intros Hin; contradiction].
  - intros name Hname.
    destruct (Hbs name Hname) as (v & Hv1 & Hprop_bs).
    destruct (Hts name Hname) as (v' & Hv3 & Hprop_ts).
    assert (Hprop_bs3 : propagated (heap w3) p "beam_search" name v).
    { eapply propagated_keeps; [exact Hk23|in_list|exact Hname|].
      exact Hprop_bs. }
    assert (v' = v) as ->.
    { destruct Hprop_bs3 as (Hv3' & _). congruence. }
    exists v. split; [|split].
    + rewrite <- (Hinst _ _ _ _ _ _ _ name Hsuper Hp Hname). exact Hv1.
    + eapply propagated_keeps; [exact Hk45|in_list|exact Hname|].
      destruct Hprop_bs3 as (Hpv & c & Hc & Hcv).
      split; [apply Hst2; [exact Hpv|intros _; exact Hv3]|].
      exists c. split.
      * apply Hst2; [exact Hc|intros Hin; contradiction].
      * apply Hst2; [exact Hcv|intros _; exact Hv3].
    + eapply propagated_keeps; [exact Hk45|in_list|exact Hname|].
      exact Hprop_ts.
Qed.

(** The assignments of a constructor that returns: the three target
    fields of the [beam_search] sub-configuration, then the three of the
    [target_sequence_sampler] sub-configuration, and no other. *)
Lemma constructor_assigns_six_fields h w self params r w' t :
  run h (BaseBeamSearchDecoder.__init__ self params) w = (Ok r, w', t) ->
  exists cb ct v1 v2 v3 u1 u2 u3,
    writes t =
    [(cb, "target_seq_len", v1); (cb, "target_sos_id", v2);
     (cb, "target_eos_id", v3);
     (ct, "target_seq_len", u1); (ct, "target_sos_id", u2);
     (ct, "target_eos_id", u3)].
Proof.
  intros Hrun. unfold BaseBeamSearchDecoder.__init__ in Hrun.
  apply run_bind_Ok in Hrun as (u0 & w1 & t0 & t0' & Hsuper & Hrun & ->).
  apply run_call_Ok in Hsuper as (Hsuper & ->).
  apply run_bind_Ok in Hrun as (p & w1' & t1 & t1' & Hp & Hrun & ->).
  apply run_getattr_Ok in Hp as (Hp & -> & ->).
  apply run_copy_group_Ok in Hrun
    as (w2 & t2 & cb & Hrun & _ & _ & (v1 & v2 & v3 & ->) & _ & _);
    [|not_in_list].
  apply run_bind_Ok in Hrun as (cr & w2' & t3 & t3' & Hcr & Hrun & ->).
  apply run_getattr_Ok in Hcr as (_ & -> & ->).
  apply run_bind_Ok in Hrun as (bs & w2' & t4 & t4' & Hb & Hrun & ->).
  apply run_getattr_Ok in Hb as (_ & -> & ->).
  apply run_bind_Ok in Hrun as (u1 & w3 & t5 & t5' & Hcall1 & Hrun & ->).
  apply run_call_Ok in Hcall1 as (Hcall1 & ->).
  apply run_copy_group_Ok in Hrun
    as (w4 & t6 & ct & Hrun & _ & _ & (u1' & u2' & u3' & ->) & _ & _);
    [|not_in_list].
  apply run_bind_Ok in Hrun as (cr' & w4' & t7 & t7' & Hcr' & Hrun & ->).
  apply run_getattr_Ok in Hcr' as (_ & -> & ->).
  apply run_bind_Ok in Hrun as (ts & w4' & t8 & t8' & Ht & Hrun & ->).
  apply run_getattr_Ok in Ht as (_ & -> & ->).
  apply run_bind_Ok in Hrun as (u2 & w5 & t9 & t9' & Hcall2 & Hrun & ->).
  apply run_call_Ok in Hcall2 as (Hcall2 & ->).
  simpl in Hrun. injection Hrun as _ _ <-.
  exists cb, ct, v1, v2, v3, u1', u2', u3'. reflexivity.
Qed.

End Constructor.

(** ** The abstract decoder *)

Section Decoder.
Context {X : Type}.
Implicit Types (h : Handler X) (w : World X).

(** C1: [FProp] calls [ComputePredictions(theta, encoder_outputs,
    targets)] first; if that raises, the exception leaves [FProp] and
    [ComputeLoss] is not called; otherwise it calls [ComputeLoss(theta,
    predictions, targets)] on the predictions it got, and returns the
    [DecoderOutput] made of the two outputs of [ComputeLoss] (as [metrics]
    and [per_sequence]) and of those predictions.  The two calls are the
    only ones [FProp] makes. *)
Theorem FProp_composes h w self theta encoder_outputs targets cp :
  lookup_attr (heap w) self "ComputePredictions" = Some cp ->
  (forall x w1,
      h (ECall cp [theta; encoder_outputs; targets]) w = (Err x, w1) ->
      run h (BaseDecoder.FProp self theta encoder_outputs targets) w =
      (Err x, w1,
       [EvCall (ECall cp [theta; encoder_outputs; targets]) (Err x)])) /\
  (forall preds w1 cl,
      h (ECall cp [theta; encoder_outputs; targets]) w = (Ok preds, w1) ->
      lookup_attr (heap w1) self "ComputeLoss" = Some cl ->
      (forall x w2,
          h (ECall cl [theta; preds; targets]) w1 = (Err x, w2) ->
          run h (BaseDecoder.FProp self theta encoder_outputs targets) w =
          (Err x, w2,
           [EvCall (ECall cp [theta; encoder_outputs; targets]) (Ok preds);
            EvCall (ECall cl [theta; preds; targets]) (Err x)])) /\
      (forall m ps w2,
          h (ECall cl [theta; preds; targets]) w1 = (Ok (VTuple [m; ps]), w2) ->
          run h (BaseDecoder.FProp self theta encoder_outputs targets) w =
          (Ok (mkDecoderOutput m preds ps), w2,
           [EvCall (ECall cp [theta; encoder_outputs; targets]) (Ok preds);
            EvCall (ECall cl [theta; preds; targets])
              (Ok (VTuple [m; ps]))]))).
Proof.
  intros Hcp. unfold BaseDecoder.FProp, dispatch, resolve. split.
  - intros x w1 H1. simpl. rewrite Hcp. simpl. rewrite H1. reflexivity.
  - intros preds w1 cl H1 Hcl. split.
    + intros x w2 H2. simpl. rewrite Hcp. simpl. rewrite H1.
      rewrite Hcl. simpl. rewrite H2. reflexivity.
    + intros m ps w2 H2. simpl. rewrite Hcp. simpl. rewrite H1.
      rewrite Hcl. simpl. rewrite H2. reflexivity.
Qed.

(** C4: [ComputePredictions] and [ComputeLoss] of [BaseDecoder], and the
    class method [UpdateTargetVocabSize] of [BaseDecoder] and of
    [BaseBeamSearchDecoder], raise [NotImplementedError] whatever their
    arguments, calling nothing and changing nothing; and so does the call
    [self.ComputePredictions(...)] or [self.ComputeLoss(...)] on an
    instance whose class does not override the method. *)
Theorem abstract_methods_raise h w :
  (forall self theta encoder_outputs targets,
      run h (BaseDecoder.ComputePredictions self theta encoder_outputs
               targets) w =
      (Err (mkExn NotImplementedError
              ("Abstract method: " ++ type_str (heap w) self)), w, [])) /\
  (forall self theta predictions targets,
      run h (BaseDecoder.ComputeLoss self theta predictions targets) w =
      (Err (mkExn NotImplementedError
              ("Abstract method: " ++ type_str (heap w) self)), w, [])) /\
  (forall cls p vocab_size wpm_model,
      run h (BaseDecoder.UpdateTargetVocabSize cls p vocab_size wpm_model) w =
      (Err (mkExn NotImplementedError "Abstract method"), w, [])) /\
  (forall cls p vocab_size wpm_model,
      run h (BaseBeamSearchDecoder.UpdateTargetVocabSize cls p vocab_size
               wpm_model) w =
      (Err (mkExn NotImplementedError "Abstract method"), w, [])) /\
  (forall self name args base,
      is_instance (heap w) self BaseDecoder.qualname = true ->
      lookup_attr (heap w) self name = None ->
      run h (dispatch BaseDecoder.qualname self name args base) w =
      run h base w) /\
  (forall self theta encoder_outputs targets,
      is_instance (heap w) self BaseDecoder.qualname = true ->
      lookup_attr (heap w) self "ComputePredictions" = None ->
      run h (BaseDecoder.FProp self theta encoder_outputs targets) w =
      (Err (mkExn NotImplementedError
              ("Abstract method: " ++ type_str (heap w) self)), w, [])).
Proof.
  repeat split; try reflexivity.
  - intros self name args base Hi Hl. unfold dispatch, resolve. simpl.
    rewrite Hl, Hi. reflexivity.
  - intros self theta enc targets Hi Hl.
    unfold BaseDecoder.FProp, dispatch, resolve. simpl.
    rewrite Hl, Hi. reflexivity.
Qed.

End Decoder.

(** ** The beam-search decoder *)

Section BeamSearch.
Context {X : Type}.
Implicit Types (h : Handler X) (w : World X).

(** C3: [AddExtraDecodingInfo] returns [encoder_outputs] itself, whatever
    [targets] is; it calls nothing and changes nothing. *)
Theorem AddExtraDecodingInfo_identity h w self encoder_outputs targets :
  run h (BaseBeamSearchDecoder.AddExtraDecodingInfo self encoder_outputs
           targets) w =
  (Ok encoder_outputs, w, []).
Proof. reflexivity. Qed.

(** C5: [BeamSearchDecodeWithTheta] makes one call and no other: the
    engine's [BeamSearchDecode], with [theta], [encoder_outputs], the
    override count (0 when left out) and the decoder's
    [_InitBeamSearchStateCallback], [_PreBeamSearchStepCallback] and
    [_PostBeamSearchStepCallback], in this order; what the engine answers,
    a result or an exception, is the outcome. *)
Theorem BeamSearchDecodeWithTheta_delegates
    h w self theta encoder_outputs override engine decode c1 c2 c3 :
  lookup_attr (heap w) self "beam_search" = Some engine ->
  lookup_attr (heap w) engine "BeamSearchDecode" = Some decode ->
  lookup_attr (heap w) self "_InitBeamSearchStateCallback" = Some c1 ->
  lookup_attr (heap w) self "_PreBeamSearchStepCallback" = Some c2 ->
  lookup_attr (heap w) self "_PostBeamSearchStepCallback" = Some c3 ->
  forall r w',
    h (ECall decode
         [theta; encoder_outputs; arg_default (VInt 0) override;
          c1; c2; c3]) w = (r, w') ->
    run h (BaseBeamSearchDecoder.BeamSearchDecodeWithTheta self theta
             encoder_outputs override) w =
    (r, w',
     [EvCall (ECall decode
                [theta; encoder_outputs; arg_default (VInt 0) override;
                 c1; c2; c3]) r]).
Proof.
  intros He Hd H1 H2 H3 r w' Hh.
  unfold BaseBeamSearchDecoder.BeamSearchDecodeWithTheta. simpl.
  rewrite He. simpl. rewrite Hd. simpl. rewrite H1. simpl.
  rewrite H2. simpl. rewrite H3. simpl. rewrite Hh.
  destruct r; reflexivity.
Qed.

(** C6: [SampleTargetSequences] makes one call and no other: the sampler's
    [Sample], with [theta], [encoder_outputs], [random_seed] and the
    decoder's three callbacks; what the sampler answers is the outcome.
    The callbacks are the ones [BeamSearchDecodeWithTheta] hands to the
    beam-search engine. *)
Theorem SampleTargetSequences_delegates
    h w self theta encoder_outputs random_seed sampler sample c1 c2 c3 :
  lookup_attr (heap w) self "target_sequence_sampler" = Some sampler ->
  lookup_attr (heap w) sampler "Sample" = Some sample ->
  lookup_attr (heap w) self "_InitBeamSearchStateCallback" = Some c1 ->
  lookup_attr (heap w) self "_PreBeamSearchStepCallback" = Some c2 ->
  lookup_attr (heap w) self "_PostBeamSearchStepCallback" = Some c3 ->
  forall r w',
    h (ECall sample [theta; encoder_outputs; random_seed; c1; c2; c3]) w =
    (r, w') ->
    run h (BaseBeamSearchDecoder.SampleTargetSequences self theta
             encoder_outputs random_seed) w =
    (r, w',
     [EvCall (ECall sample
                [theta; encoder_outputs; random_seed; c1; c2; c3]) r]) /\
    forall theta' encoder_outputs' override engine decode,
      lookup_attr (heap w) self "beam_search" = Some engine ->
      lookup_attr (heap w) engine "BeamSearchDecode" = Some decode ->
      map (fun c => callbacks_of c.1)
        (calls (run h (BaseBeamSearchDecoder.BeamSearchDecodeWithTheta self
                         theta' encoder_outputs' override) w).2) =
      map (fun c => callbacks_of c.1)
        (calls (run h (BaseBeamSearchDecoder.SampleTargetSequences self
                         theta encoder_outputs random_seed) w).2).
Proof.
  intros Hs Hm H1 H2 H3 r w' Hh.
  assert (Hrun : run h (BaseBeamSearchDecoder.SampleTargetSequences self
                          theta encoder_outputs random_seed) w =
                 (r, w',
                  [EvCall (ECall sample
                             [theta; encoder_outputs; random_seed;
                              c1; c2; c3]) r])).
  { unfold BaseBeamSearchDecoder.SampleTargetSequences. simpl.
    rewrite Hs. simpl. rewrite Hm. simpl. rewrite H1. simpl.
    rewrite H2. simpl. rewrite H3. simpl. rewrite Hh.
    destruct r; reflexivity. }
  split; [exact Hrun|].
  intros theta' enc' override engine decode He Hd. rewrite Hrun.
  unfold BaseBeamSearchDecoder.BeamSearchDecodeWithTheta. simpl.
  rewrite He. simpl. rewrite Hd. simpl. rewrite H1. simpl.
  rewrite H2. simpl. rewrite H3. simpl.
  destruct (h (ECall decode _) w) as [[v|x] w1]; reflexivity.
Qed.

(** C10: [BeamSearchDecode(encoder_outputs, n)] is
    [self.BeamSearchDecodeWithTheta(self.theta, encoder_outputs, n)]: with
    the decoder's own [theta], the two entry points have the same outcome
    (the same result or exception, the same calls, the same final world),
    and in both the override is 0 when it is left out. *)
Theorem BeamSearchDecode_is_WithTheta h w self encoder_outputs override theta :
  lookup_attr (heap w) self "theta" = Some theta ->
  (lookup_attr (heap w) self "BeamSearchDecodeWithTheta" = None ->
   is_instance (heap w) self BaseBeamSearchDecoder.qualname = true ->
   run h (BaseBeamSearchDecoder.BeamSearchDecode self encoder_outputs
            override) w =
   run h (BaseBeamSearchDecoder.BeamSearchDecodeWithTheta self theta
            encoder_outputs override) w) /\
  (forall f,
      lookup_attr (heap w) self "BeamSearchDecodeWithTheta" = Some f ->
      run h (BaseBeamSearchDecoder.BeamSearchDecode self encoder_outputs
               override) w =
      run h (Call (ECall f [theta; encoder_outputs;
                            arg_default (VInt 0) override]) Ret) w) /\
  BaseBeamSearchDecoder.BeamSearchDecode self encoder_outputs None =
  BaseBeamSearchDecoder.BeamSearchDecode self encoder_outputs
    (Some (VInt 0)) /\
  BaseBeamSearchDecoder.BeamSearchDecodeWithTheta self theta
    encoder_outputs None =
  BaseBeamSearchDecoder.BeamSearchDecodeWithTheta self theta
    encoder_outputs (Some (VInt 0)).
Proof.
  intros Ht. repeat split.
  - intros Hm Hi. unfold BaseBeamSearchDecoder.BeamSearchDecode, resolve.
    simpl. rewrite Hm, Hi. simpl. rewrite Ht. reflexivity.
  - intros f Hm. unfold BaseBeamSearchDecoder.BeamSearchDecode, resolve.
    simpl. rewrite Hm. simpl. rewrite Ht. reflexivity.
Qed.

(** C7: with a beam-search engine that treats the override as the spec
    says, [BeamSearchDecode] searches with the override as the
    hypotheses-per-beam count when the override is positive, and with the
    configured count when it is zero, negative or left out; in each case
    the world after the call is the world before it, so the configured
    count is still the stored one. *)
Theorem BeamSearchDecode_override
    (search : PyVal -> PyVal -> Z -> PyVal -> PyVal -> PyVal -> PyVal)
    w self encoder_outputs theta e ep configured c1 c2 c3 :
  is_instance (heap w) self BaseBeamSearchDecoder.qualname = true ->
  lookup_attr (heap w) self "BeamSearchDecodeWithTheta" = None ->
  lookup_attr (heap w) self "theta" = Some theta ->
  lookup_attr (heap w) self "beam_search" = Some (VRef e) ->
  lookup_attr (heap w) (VRef e) "BeamSearchDecode" =
    Some (VBound e "BeamSearchDecode") ->
  lookup_attr (heap w) self "_InitBeamSearchStateCallback" = Some c1 ->
  lookup_attr (heap w) self "_PreBeamSearchStepCallback" = Some c2 ->
  lookup_attr (heap w) self "_PostBeamSearchStepCallback" = Some c3 ->
  lookup_attr (heap w) (VRef e) "params" = Some ep ->
  lookup_attr (heap w) ep "num_hyps_per_beam" = Some (VInt configured) ->
  (forall n, (0 < n)%Z ->
     exists t,
       run (spec_engine search)
         (BaseBeamSearchDecoder.BeamSearchDecode self encoder_outputs
            (Some (VInt n))) w =
       (Ok (search theta encoder_outputs n c1 c2 c3), w, t)) /\
  (forall n, (n <= 0)%Z ->
     exists t,
       run (spec_engine search)
         (BaseBeamSearchDecoder.BeamSearchDecode self encoder_outputs
            (Some (VInt n))) w =
       (Ok (search theta encoder_outputs configured c1 c2 c3), w, t)) /\
  (exists t,
      run (spec_engine search)
        (BaseBeamSearchDecoder.BeamSearchDecode self encoder_outputs None) w =
      (Ok (search theta encoder_outputs configured c1 c2 c3), w, t)).
Proof.
  intros Hi Hm Ht He Hd H1 H2 H3 Hp Hk.
  assert (Hrun : forall n,
    run (spec_engine search)
      (BaseBeamSearchDecoder.BeamSearchDecode self encoder_outputs
         (Some (VInt n))) w =
    (Ok (search theta encoder_outputs
           (engine_num_hyps_per_beam configured n) c1 c2 c3), w,
     [EvCall (ECall (VBound e "BeamSearchDecode")
                [theta; encoder_outputs; VInt n; c1; c2; c3])
        (Ok (search theta encoder_outputs
               (engine_num_hyps_per_beam configured n) c1 c2 c3))])).
  { intros n.
    unfold BaseBeamSearchDecoder.BeamSearchDecode, resolve,
      BaseBeamSearchDecoder.BeamSearchDecodeWithTheta.
    simpl. rewrite Hm, Hi. simpl. rewrite Ht. simpl.
    rewrite He. simpl. rewrite Hd. simpl. rewrite H1. simpl.
    rewrite H2. simpl. rewrite H3. simpl.
    unfold engine_BeamSearchDecode. rewrite Hp, Hk. reflexivity. }
  repeat split.
  - intros n Hn. eexists. rewrite Hrun. unfold engine_num_hyps_per_beam.
    destruct (Z.ltb_spec 0 n); [reflexivity|lia].
  - intros n Hn. eexists. rewrite Hrun. unfold engine_num_hyps_per_beam.
    destruct (Z.ltb_spec 0 n); [lia|reflexivity].
  - eexists. apply (Hrun 0%Z).
Qed.

End BeamSearch.

(** ** Equal calls in equal states *)

Section Determinism.
Context {X : Type}.
Implicit Types (h : Handler X) (w : World X).






End Determinism.

(** ** The concrete decoder *)

Section ToyEnvironment.

Lemma lookup_attr_write_ne_obj (hp : Heap) c name v o a :
  o <> VRef c ->
  lookup_attr (write hp c name v) o a = lookup_attr hp o a.
Proof.
  intros Hne. unfold lookup_attr, write. destruct o; try reflexivity.
  rewrite lookup_alter_ne by congruence. reflexivity.
Qed.

Lemma lookup_attr_insert_fresh (hp : Heap) l ob o a v :
  hp !! l = None ->
  lookup_attr hp o a = Some v ->
  lookup_attr (<[l := ob]> hp) o a = Some v.
Proof.
  intros Hl. unfold lookup_attr. destruct o; try discriminate.
  destruct (decide (l = l0)) as [<-|Hne].
  - rewrite Hl. discriminate.
  - rewrite lookup_insert_ne by exact Hne. auto.
Qed.

Lemma toy_installs_params : installs_params Toy.handler.
Proof.
  intros cls self params w r w1 q name Hh Hq Hname.
  unfold Toy.handler in Hh. destruct self; try discriminate.
  simpl in Hh. injection Hh as _ <-. simpl in *.
  assert (Hne : name <> "params").
  { intros ->. revert Hname. not_in_list. }
  assert (q = params) as ->.
  { unfold lookup_attr, write in Hq. rewrite lookup_alter_eq in Hq.
    destruct (heap w !! l) as [ob|]; simpl in Hq; [|discriminate].
    rewrite lookup_insert_eq in Hq. congruence. }
  apply lookup_attr_write_other. exact Hne.
Qed.

Lemma toy_calls_keep f args w :
  keeps config_attrs (heap w) (heap (Toy.handler (ECall f args) w).2).
Proof.
  unfold Toy.handler.
  destruct f; try apply keeps_refl.
  destruct (String.eqb name "CreateChild").
  { destruct args as [|[] [|ps []]]; try apply keeps_refl.
    unfold Toy.create_child.
    destruct (lookup_attr (heap w) (VRef l) s) eqn:Hs; try apply keeps_refl.
    destruct (heap w !! ext w) eqn:Hfresh; try apply keeps_refl.
    simpl. intros o a v _ Hv.
    destruct o as [| | | | | |l'|]; try discriminate.
    destruct (decide (l' = l)) as [->|Hl].
    - apply lookup_attr_write_persist.
      + apply lookup_attr_insert_fresh; assumption.
      + intros ->. congruence.
    - rewrite lookup_attr_write_ne_obj by congruence.
      apply lookup_attr_insert_fresh; assumption. }
  destruct (String.eqb name "BeamSearchDecode").
  { unfold engine_BeamSearchDecode.
    repeat case_match; apply keeps_refl. }
  repeat case_match; apply keeps_refl.
Qed.

Lemma toy_frame_CreateChild : frame_CreateChild Toy.handler.
Proof. intros self f args w _. apply toy_calls_keep. Qed.

(** With a base layer that keeps the parameters it is given, the
    constructor overwrites the fields of the sub-configurations of these
    very parameters: [target_sos_id] of the object at 3 was 7. *)
Lemma constructor_overwrites_kept_params :
  lookup_attr Toy.heap0 (VRef 3) "target_sos_id" = Some (VInt 7) /\
  lookup_attr (heap Toy.world1) Toy.self "params" =
    Some Toy.params /\
  lookup_attr (heap Toy.world1) (VRef 3) "target_sos_id" =
    Some (VInt 1).
Proof. repeat split; vm_compute; reflexivity. Qed.

(** With a base layer that keeps a copy, the constructor returns as well,
    the copies receive the values, and the parameters it was given (the
    objects at 2, 3 and 4) are as they were. *)
Lemma constructor_spares_copied_params :
  (run Toy.copying_handler
     (BaseBeamSearchDecoder.__init__ Toy.self Toy.params)
     Toy.world0).1 = (Ok VNone, Toy.world1_copied) /\
  lookup_attr (heap Toy.world1_copied) Toy.self "params" =
    Some (VRef 9) /\
  lookup_attr (heap Toy.world1_copied) (VRef 9) "beam_search" =
    Some (VRef 10) /\
  lookup_attr (heap Toy.world1_copied) (VRef 10) "target_sos_id" =
    Some (VInt 1) /\
  heap Toy.world1_copied !! 2%nat = Toy.heap0 !! 2%nat /\
  heap Toy.world1_copied !! 3%nat = Toy.heap0 !! 3%nat /\
  heap Toy.world1_copied !! 4%nat = Toy.heap0 !! 4%nat.
Proof. repeat split; vm_compute; reflexivity. Qed.

End ToyEnvironment.

(** ** The claims on the concrete decoder *)

Lemma FProp_composes_witness :
  lookup_attr (heap Toy.world1) Toy.self "ComputePredictions" =
    Some (VBound 1 "ComputePredictions") /\
  Toy.handler
    (ECall (VBound 1 "ComputePredictions")
       [Toy.theta; Toy.encoder_outputs; Toy.targets])
    Toy.world1 =
    (Ok (VTuple [VStr "logits"; Toy.encoder_outputs]), Toy.world1) /\
  lookup_attr (heap Toy.world1) Toy.self "ComputeLoss" =
    Some (VBound 1 "ComputeLoss") /\
  Toy.handler
    (ECall (VBound 1 "ComputeLoss")
       [Toy.theta; VTuple [VStr "logits"; Toy.encoder_outputs];
        Toy.targets])
    Toy.world1 =
    (Ok (VTuple
           [VTuple [VStr "loss"; VTuple [VStr "logits"; Toy.encoder_outputs];
                    Toy.targets];
            VTuple [VStr "per_sequence"; Toy.targets]]), Toy.world1) /\
  run Toy.handler
    (BaseDecoder.FProp Toy.self Toy.theta Toy.encoder_outputs
       Toy.targets) Toy.world1 =
  (Ok (mkDecoderOutput
         (VTuple [VStr "loss"; VTuple [VStr "logits"; Toy.encoder_outputs];
                  Toy.targets])
         (VTuple [VStr "logits"; Toy.encoder_outputs])
         (VTuple [VStr "per_sequence"; Toy.targets])),
   Toy.world1,
   [EvCall (ECall (VBound 1 "ComputePredictions")
              [Toy.theta; Toy.encoder_outputs; Toy.targets])
      (Ok (VTuple [VStr "logits"; Toy.encoder_outputs]));
    EvCall (ECall (VBound 1 "ComputeLoss")
              [Toy.theta; VTuple [VStr "logits"; Toy.encoder_outputs];
               Toy.targets])
      (Ok (VTuple
             [VTuple [VStr "loss";
                      VTuple [VStr "logits"; Toy.encoder_outputs];
                      Toy.targets];
              VTuple [VStr "per_sequence"; Toy.targets]]))]).
Proof.
  assert (H1 : lookup_attr (heap Toy.world1) Toy.self
                 "ComputePredictions" = Some (VBound 1 "ComputePredictions"))
    by (vm_compute; reflexivity).
  assert (H2 : Toy.handler
                 (ECall (VBound 1 "ComputePredictions")
                    [Toy.theta; Toy.encoder_outputs; Toy.targets])
                 Toy.world1 =
               (Ok (VTuple [VStr "logits"; Toy.encoder_outputs]),
                Toy.world1))
    by (vm_compute; reflexivity).
  assert (H3 : lookup_attr (heap Toy.world1) Toy.self "ComputeLoss" =
               Some (VBound 1 "ComputeLoss"))
    by (vm_compute; reflexivity).
  assert (H4 : Toy.handler
                 (ECall (VBound 1 "ComputeLoss")
                    [Toy.theta;
                     VTuple [VStr "logits"; Toy.encoder_outputs];
                     Toy.targets])
                 Toy.world1 =
               (Ok (VTuple
                      [VTuple [VStr "loss";
                               VTuple [VStr "logits"; Toy.encoder_outputs];
                               Toy.targets];
                       VTuple [VStr "per_sequence"; Toy.targets]]),
                Toy.world1))
    by (vm_compute; reflexivity).
  repeat (split; [assumption|]).
  destruct (FProp_composes Toy.handler Toy.world1 Toy.self
              Toy.theta Toy.encoder_outputs Toy.targets _ H1)
    as [_ Hok].
  destruct (Hok _ _ _ H2 H3) as [_ Hok'].
  exact (Hok' _ _ _ H4).
Defined.

Lemma abstract_methods_raise_witness :
  is_instance (heap Toy.world1) Toy.bare BaseDecoder.qualname = true /\
  lookup_attr (heap Toy.world1) Toy.bare "ComputePredictions" = None /\
  run Toy.handler
    (BaseDecoder.FProp Toy.bare Toy.theta Toy.encoder_outputs
       Toy.targets) Toy.world1 =
  (Err (mkExn NotImplementedError
          ("Abstract method: " ++
           "<class 'lingvo.core.base_decoder.BaseBeamSearchDecoder'>")),
   Toy.world1, []).
Proof.
  assert (H1 : is_instance (heap Toy.world1) Toy.bare
                 BaseDecoder.qualname = true)
    by (vm_compute; reflexivity).
  assert (H2 : lookup_attr (heap Toy.world1) Toy.bare
                 "ComputePredictions" = None)
    by (vm_compute; reflexivity).
  repeat (split; [assumption|]).
  destruct (abstract_methods_raise Toy.handler Toy.world1)
    as (_ & _ & _ & _ & _ & Hfprop).
  exact (Hfprop Toy.bare Toy.theta Toy.encoder_outputs
           Toy.targets H1 H2).
Defined.

Lemma constructor_propagates_witness :
  installs_params Toy.handler /\
  frame_CreateChild Toy.handler /\
  run Toy.handler
    (BaseBeamSearchDecoder.__init__ Toy.self Toy.params)
    Toy.world0 = (Ok VNone, Toy.world1, Toy.trace1) /\
  (exists p,
      lookup_attr (heap Toy.world1) Toy.self "params" = Some p /\
      forall name, name ∈ target_fields ->
        exists v,
          lookup_attr (heap Toy.world0) Toy.params name = Some v /\
          propagated (heap Toy.world1) p "beam_search" name v /\
          propagated (heap Toy.world1) p "target_sequence_sampler" name v).
Proof.
  assert (Hrun : run Toy.handler
                   (BaseBeamSearchDecoder.__init__ Toy.self Toy.params)
                   Toy.world0 = (Ok VNone, Toy.world1, Toy.trace1))
    by (vm_compute; reflexivity).
  split; [exact toy_installs_params|].
  split; [exact toy_frame_CreateChild|].
  split; [exact Hrun|].
  exact (proj1 (constructor_propagates Toy.handler Toy.world0
                  Toy.self Toy.params VNone Toy.world1 Toy.trace1
                  toy_installs_params toy_frame_CreateChild Hrun)).
Defined.

Lemma BeamSearchDecodeWithTheta_delegates_witness :
  lookup_attr (heap Toy.world1) Toy.self "beam_search" = Some (VRef 9) /\
  lookup_attr (heap Toy.world1) (VRef 9) "BeamSearchDecode" =
    Some (VBound 9 "BeamSearchDecode") /\
  lookup_attr (heap Toy.world1) Toy.self "_InitBeamSearchStateCallback" =
    Some (VBound 1 "_InitBeamSearchStateCallback") /\
  lookup_attr (heap Toy.world1) Toy.self "_PreBeamSearchStepCallback" =
    Some (VBound 1 "_PreBeamSearchStepCallback") /\
  lookup_attr (heap Toy.world1) Toy.self "_PostBeamSearchStepCallback" =
    Some (VBound 1 "_PostBeamSearchStepCallback") /\
  Toy.handler
    (ECall (VBound 9 "BeamSearchDecode")
       [Toy.theta; Toy.encoder_outputs; VInt 3;
        VBound 1 "_InitBeamSearchStateCallback";
        VBound 1 "_PreBeamSearchStepCallback";
        VBound 1 "_PostBeamSearchStepCallback"]) Toy.world1 =
    (Ok (VTuple [VStr "BeamSearchDecodeOutput"; Toy.encoder_outputs;
                 VInt 3]), Toy.world1) /\
  run Toy.handler
    (BaseBeamSearchDecoder.BeamSearchDecodeWithTheta Toy.self Toy.theta
       Toy.encoder_outputs (Some (VInt 3))) Toy.world1 =
  (Ok (VTuple [VStr "BeamSearchDecodeOutput"; Toy.encoder_outputs; VInt 3]),
   Toy.world1,
   [EvCall (ECall (VBound 9 "BeamSearchDecode")
              [Toy.theta; Toy.encoder_outputs; VInt 3;
               VBound 1 "_InitBeamSearchStateCallback";
               VBound 1 "_PreBeamSearchStepCallback";
               VBound 1 "_PostBeamSearchStepCallback"])
      (Ok (VTuple [VStr "BeamSearchDecodeOutput"; Toy.encoder_outputs;
                   VInt 3]))]).
Proof.
  assert (H1 : lookup_attr (heap Toy.world1) Toy.self "beam_search" =
               Some (VRef 9)) by (vm_compute; reflexivity).
  assert (H2 : lookup_attr (heap Toy.world1) (VRef 9) "BeamSearchDecode" =
               Some (VBound 9 "BeamSearchDecode"))
    by (vm_compute; reflexivity).
  assert (H3 : lookup_attr (heap Toy.world1) Toy.self
                 "_InitBeamSearchStateCallback" =
               Some (VBound 1 "_InitBeamSearchStateCallback"))
    by (vm_compute; reflexivity).
  assert (H4 : lookup_attr (heap Toy.world1) Toy.self
                 "_PreBeamSearchStepCallback" =
               Some (VBound 1 "_PreBeamSearchStepCallback"))
    by (vm_compute; reflexivity).
  assert (H5 : lookup_attr (heap Toy.world1) Toy.self
                 "_PostBeamSearchStepCallback" =
               Some (VBound 1 "_PostBeamSearchStepCallback"))
    by (vm_compute; reflexivity).
  assert (H6 : Toy.handler
                 (ECall (VBound 9 "BeamSearchDecode")
                    [Toy.theta; Toy.encoder_outputs; VInt 3;
                     VBound 1 "_InitBeamSearchStateCallback";
                     VBound 1 "_PreBeamSearchStepCallback";
                     VBound 1 "_PostBeamSearchStepCallback"]) Toy.world1 =
               (Ok (VTuple [VStr "BeamSearchDecodeOutput";
                            Toy.encoder_outputs; VInt 3]), Toy.world1))
    by (vm_compute; reflexivity).
  repeat (split; [assumption|]).
  exact (BeamSearchDecodeWithTheta_delegates Toy.handler Toy.world1
           Toy.self Toy.theta Toy.encoder_outputs (Some (VInt 3))
           _ _ _ _ _ H1 H2 H3 H4 H5 _ _ H6).
Defined.

Lemma SampleTargetSequences_delegates_witness :
  lookup_attr (heap Toy.world1) Toy.self "target_sequence_sampler" =
    Some (VRef 10) /\
  lookup_attr (heap Toy.world1) (VRef 10) "Sample" =
    Some (VBound 10 "Sample") /\
  lookup_attr (heap Toy.world1) Toy.self "_InitBeamSearchStateCallback" =
    Some (VBound 1 "_InitBeamSearchStateCallback") /\
  lookup_attr (heap Toy.world1) Toy.self "_PreBeamSearchStepCallback" =
    Some (VBound 1 "_PreBeamSearchStepCallback") /\
  lookup_attr (heap Toy.world1) Toy.self "_PostBeamSearchStepCallback" =
    Some (VBound 1 "_PostBeamSearchStepCallback") /\
  Toy.handler
    (ECall (VBound 10 "Sample")
       [Toy.theta; Toy.encoder_outputs; VInt 5;
        VBound 1 "_InitBeamSearchStateCallback";
        VBound 1 "_PreBeamSearchStepCallback";
        VBound 1 "_PostBeamSearchStepCallback"]) Toy.world1 =
    (Ok (VTuple [VStr "ids"; Toy.encoder_outputs; VInt 5]),
     Toy.world1) /\
  run Toy.handler
    (BaseBeamSearchDecoder.SampleTargetSequences Toy.self Toy.theta
       Toy.encoder_outputs (VInt 5)) Toy.world1 =
  (Ok (VTuple [VStr "ids"; Toy.encoder_outputs; VInt 5]), Toy.world1,
   [EvCall (ECall (VBound 10 "Sample")
              [Toy.theta; Toy.encoder_outputs; VInt 5;
               VBound 1 "_InitBeamSearchStateCallback";
               VBound 1 "_PreBeamSearchStepCallback";
               VBound 1 "_PostBeamSearchStepCallback"])
      (Ok (VTuple [VStr "ids"; Toy.encoder_outputs; VInt 5]))]).
Proof.
  assert (H1 : lookup_attr (heap Toy.world1) Toy.self
                 "target_sequence_sampler" = Some (VRef 10))
    by (vm_compute; reflexivity).
  assert (H2 : lookup_attr (heap Toy.world1) (VRef 10) "Sample" =
               Some (VBound 10 "Sample")) by (vm_compute; reflexivity).
  assert (H3 : lookup_attr (heap Toy.world1) Toy.self
                 "_InitBeamSearchStateCallback" =
               Some (VBound 1 "_InitBeamSearchStateCallback"))
    by (vm_compute; reflexivity).
  assert (H4 : lookup_attr (heap Toy.world1) Toy.self
                 "_PreBeamSearchStepCallback" =
               Some (VBound 1 "_PreBeamSearchStepCallback"))
    by (vm_compute; reflexivity).
  assert (H5 : lookup_attr (heap Toy.world1) Toy.self
                 "_PostBeamSearchStepCallback" =
               Some (VBound 1 "_PostBeamSearchStepCallback"))
    by (vm_compute; reflexivity).
  assert (H6 : Toy.handler
                 (ECall (VBound 10 "Sample")
                    [Toy.theta; Toy.encoder_outputs; VInt 5;
                     VBound 1 "_InitBeamSearchStateCallback";
                     VBound 1 "_PreBeamSearchStepCallback";
                     VBound 1 "_PostBeamSearchStepCallback"]) Toy.world1 =
               (Ok (VTuple [VStr "ids"; Toy.encoder_outputs; VInt 5]),
                Toy.world1))
    by (vm_compute; reflexivity).
  repeat (split; [assumption|]).
  exact (proj1 (SampleTargetSequences_delegates Toy.handler Toy.world1
                  Toy.self Toy.theta Toy.encoder_outputs (VInt 5)
                  _ _ _ _ _ H1 H2 H3 H4 H5 _ _ H6)).
Defined.

Lemma BeamSearchDecode_is_WithTheta_witness :
  lookup_attr (heap Toy.world1) Toy.self "theta" = Some Toy.theta /\
  lookup_attr (heap Toy.world1) Toy.self "BeamSearchDecodeWithTheta" =
    None /\
  is_instance (heap Toy.world1) Toy.self
    BaseBeamSearchDecoder.qualname = true /\
  run Toy.handler
    (BaseBeamSearchDecoder.BeamSearchDecode Toy.self
       Toy.encoder_outputs None) Toy.world1 =
  run Toy.handler
    (BaseBeamSearchDecoder.BeamSearchDecodeWithTheta Toy.self Toy.theta
       Toy.encoder_outputs None) Toy.world1.
Proof.
  assert (H1 : lookup_attr (heap Toy.world1) Toy.self "theta" =
               Some Toy.theta) by (vm_compute; reflexivity).
  assert (H2 : lookup_attr (heap Toy.world1) Toy.self
                 "BeamSearchDecodeWithTheta" = None)
    by (vm_compute; reflexivity).
  assert (H3 : is_instance (heap Toy.world1) Toy.self
                 BaseBeamSearchDecoder.qualname = true)
    by (vm_compute; reflexivity).
  repeat (split; [assumption|]).
  exact (proj1 (BeamSearchDecode_is_WithTheta Toy.handler Toy.world1
                  Toy.self Toy.encoder_outputs None Toy.theta H1)
           H2 H3).
Defined.

Lemma BeamSearchDecode_override_witness :
  is_instance (heap Toy.world1) Toy.self
    BaseBeamSearchDecoder.qualname = true /\
  lookup_attr (heap Toy.world1) Toy.self "BeamSearchDecodeWithTheta" =
    None /\
  lookup_attr (heap Toy.world1) Toy.self "theta" = Some Toy.theta /\
  lookup_attr (heap Toy.world1) Toy.self "beam_search" = Some (VRef 9) /\
  lookup_attr (heap Toy.world1) (VRef 9) "BeamSearchDecode" =
    Some (VBound 9 "BeamSearchDecode") /\
  lookup_attr (heap Toy.world1) Toy.self "_InitBeamSearchStateCallback" =
    Some (VBound 1 "_InitBeamSearchStateCallback") /\
  lookup_attr (heap Toy.world1) Toy.self "_PreBeamSearchStepCallback" =
    Some (VBound 1 "_PreBeamSearchStepCallback") /\
  lookup_attr (heap Toy.world1) Toy.self "_PostBeamSearchStepCallback" =
    Some (VBound 1 "_PostBeamSearchStepCallback") /\
  lookup_attr (heap Toy.world1) (VRef 9) "params" = Some (VRef 3) /\
  lookup_attr (heap Toy.world1) (VRef 3) "num_hyps_per_beam" =
    Some (VInt 8) /\
  (exists t,
      run (spec_engine Toy.search)
        (BaseBeamSearchDecoder.BeamSearchDecode Toy.self
           Toy.encoder_outputs (Some (VInt 3))) Toy.world1 =
      (Ok (Toy.search Toy.theta Toy.encoder_outputs 3
             (VBound 1 "_InitBeamSearchStateCallback")
             (VBound 1 "_PreBeamSearchStepCallback")
             (VBound 1 "_PostBeamSearchStepCallback")), Toy.world1, t)) /\
  (exists t,
      run (spec_engine Toy.search)
        (BaseBeamSearchDecoder.BeamSearchDecode Toy.self
           Toy.encoder_outputs (Some (VInt (-1)))) Toy.world1 =
      (Ok (Toy.search Toy.theta Toy.encoder_outputs 8
             (VBound 1 "_InitBeamSearchStateCallback")
             (VBound 1 "_PreBeamSearchStepCallback")
             (VBound 1 "_PostBeamSearchStepCallback")), Toy.world1, t)).
Proof.
  assert (H1 : is_instance (heap Toy.world1) Toy.self
                 BaseBeamSearchDecoder.qualname = true)
    by (vm_compute; reflexivity).
  assert (H2 : lookup_attr (heap Toy.world1) Toy.self
                 "BeamSearchDecodeWithTheta" = None)
    by (vm_compute; reflexivity).
  assert (H3 : lookup_attr (heap Toy.world1) Toy.self "theta" =
               Some Toy.theta) by (vm_compute; reflexivity).
  assert (H4 : lookup_attr (heap Toy.world1) Toy.self "beam_search" =
               Some (VRef 9)) by (vm_compute; reflexivity).
  assert (H5 : lookup_attr (heap Toy.world1) (VRef 9) "BeamSearchDecode" =
               Some (VBound 9 "BeamSearchDecode"))
    by (vm_compute; reflexivity).
  assert (H6 : lookup_attr (heap Toy.world1) Toy.self
                 "_InitBeamSearchStateCallback" =
               Some (VBound 1 "_InitBeamSearchStateCallback"))
    by (vm_compute; reflexivity).
  assert (H7 : lookup_attr (heap Toy.world1) Toy.self
                 "_PreBeamSearchStepCallback" =
               Some (VBound 1 "_PreBeamSearchStepCallback"))
    by (vm_compute; reflexivity).
  assert (H8 : lookup_attr (heap Toy.world1) Toy.self
                 "_PostBeamSearchStepCallback" =
               Some (VBound 1 "_PostBeamSearchStepCallback"))
    by (vm_compute; reflexivity).
  assert (H9 : lookup_attr (heap Toy.world1) (VRef 9) "params" =
               Some (VRef 3)) by (vm_compute; reflexivity).
  assert (H10 : lookup_attr (heap Toy.world1) (VRef 3)
                  "num_hyps_per_beam" = Some (VInt 8))
    by (vm_compute; reflexivity).
  repeat (split; [assumption|]).
  destruct (BeamSearchDecode_override Toy.search Toy.world1 Toy.self
              Toy.encoder_outputs _ _ _ _ _ _ _
              H1 H2 H3 H4 H5 H6 H7 H8 H9 H10) as (Hpos & Hneg & _).
  split; [apply (Hpos 3%Z)|apply (Hneg (-1)%Z)]; lia.
Defined.




(** * Further properties of the module *)

(** ** What the constructor assigns, whatever its outcome *)

Section Assignments.
Context {X : Type}.
Implicit Types (h : Handler X) (w : World X).

Lemma OnlySets_bind {A B : Type} names (p : Prog A) (f : A -> Prog B) :
  OnlySets names p -> (forall a, OnlySets names (f a)) ->
  OnlySets names (p ≫= f).
Proof.
  intros Hp Hf. unfold mbind, Prog_bind.
  induction Hp as [a|e|k Hk IH|l name v k Hin Hk IH|e k Hk IH]; simpl.
  - apply Hf.
  - constructor.
  - constructor. exact IH.
  - constructor; [exact Hin|exact IH].
  - constructor. exact IH.
Qed.

Lemma OnlySets_getattr names v name : OnlySets names (getattr v name).
Proof.
  constructor. intros hp. destruct (lookup_attr hp v name); constructor.
Qed.

Lemma OnlySets_call names e : OnlySets names (Call e Ret).
Proof. constructor. intros v. constructor. Qed.

Lemma OnlySets_copy_down names p child name :
  name ∈ names ->
  OnlySets names (BaseBeamSearchDecoder.copy_down p child name).
Proof.
  intros Hin. apply OnlySets_bind; [apply OnlySets_getattr|]. intros v.
  apply OnlySets_bind; [apply OnlySets_getattr|]. intros c.
  destruct c; try constructor. intros hp.
  destruct (hp !! l); constructor; [exact Hin|constructor].
Qed.

Lemma OnlySets___init__ self params :
  OnlySets target_fields (BaseBeamSearchDecoder.__init__ self params).
Proof.
  apply OnlySets_bind; [apply OnlySets_call|]. intros _.
  apply OnlySets_bind; [apply OnlySets_getattr|]. intros p.
  do 3 (apply OnlySets_bind; [apply OnlySets_copy_down; in_list|]; intros _).
  do 2 (apply OnlySets_bind; [apply OnlySets_getattr|]; intros ?).
  apply OnlySets_bind; [apply OnlySets_call|]. intros _.
  do 3 (apply OnlySets_bind; [apply OnlySets_copy_down; in_list|]; intros _).
  do 2 (apply OnlySets_bind; [apply OnlySets_getattr|]; intros ?).
  apply OnlySets_bind; [apply OnlySets_call|]. intros _.
  constructor.
Qed.

Lemma run_OnlySets {A : Type} names h (p : Prog A) w :
  OnlySets names p ->
  Forall (fun wr => wr.1.2 ∈ names) (writes (run h p w).2).
Proof.
  intros Hp. revert w.
  induction Hp as [a|e|k Hk IH|l name v k Hin Hk IH|e k Hk IH];
    intros w; simpl.
  - constructor.
  - constructor.
  - apply IH.
  - specialize (IH (mkWorld (write (heap w) l name v) (ext w))).
    destruct (run h k _) as [[r w'] t]. simpl. constructor; assumption.
  - destruct (h e w) as [[v|x] w1]; [|constructor].
    specialize (IH v w1). destruct (run h (k v) w1) as [[r w2] t].
    exact IH.
Qed.

(** X1: whatever the outcome of the constructor (it returns, or an exception
    of the base layer, of [CreateChild] or of an attribute lookup leaves it),
    and whatever the code outside the module does, every attribute the
    constructor has assigned is a [target_seq_len], a [target_sos_id] or a
    [target_eos_id]. *)
Theorem constructor_assigns_only_target_fields h w self params :
  Forall (fun wr => wr.1.2 ∈ target_fields)
    (writes (run h (BaseBeamSearchDecoder.__init__ self params) w).2).
Proof. apply run_OnlySets, OnlySets___init__. Qed.

End Assignments.

(** ** The order of the constructor's steps *)

Section ConstructorSteps.
Context {X : Type}.
Implicit Types (h : Handler X) (w : World X).

(** The three assignments [p.child.target_... = p.target_...] and the world
    they leave. *)
Lemma run_copy_group_explicit {A : Type} h p child (k : Prog A) w r w' t :
  child ∉ target_fields ->
  run h (_ ← BaseBeamSearchDecoder.copy_down p child "target_seq_len";
         _ ← BaseBeamSearchDecoder.copy_down p child "target_sos_id";
         _ ← BaseBeamSearchDecoder.copy_down p child "target_eos_id";
         k) w = (Ok r, w', t) ->
  exists c v1 v2 v3 t2,
    lookup_attr (heap w) p child = Some (VRef c) /\
    lookup_attr (heap w) p "target_seq_len" = Some v1 /\
    lookup_attr (heap w) p "target_sos_id" = Some v2 /\
    lookup_attr (heap w) p "target_eos_id" = Some v3 /\
    run h k
      (mkWorld
         (write (write (write (heap w) c "target_seq_len" v1)
                   c "target_sos_id" v2) c "target_eos_id" v3)
         (ext w)) = (Ok r, w', t2) /\
    t = ([EvSet c "target_seq_len" v1; EvSet c "target_sos_id" v2;
          EvSet c "target_eos_id" v3] ++ t2)%list.
Proof.
  intros Hchild Hrun.
  assert (Hc1 : child <> "target_seq_len")
    by (intros ->; apply Hchild; in_list).
  assert (Hc2 : child <> "target_sos_id")
    by (intros ->; apply Hchild; in_list).
  apply run_bind_Ok in Hrun as (u1 & wa & ta & ta' & Ha & Hrun & ->).
  apply run_copy_down_Ok in Ha as (v1 & c & Hv1 & Hc & Hin1 & -> & ->).
  apply run_bind_Ok in Hrun as (u2 & wb & tb & tb' & Hb & Hrun & ->).
  apply run_copy_down_Ok in Hb as (v2 & c2 & Hv2 & Hc' & Hin2 & -> & ->).
  apply run_bind_Ok in Hrun as (u3 & wc & tc & tc' & Hcc & Hrun & ->).
  apply run_copy_down_Ok in Hcc as (v3 & c3 & Hv3 & Hc'' & Hin3 & -> & ->).
  simpl in *.
  rewrite lookup_attr_write_other in Hc' by exact Hc1.
  assert (c2 = c) by congruence. subst c2.
  rewrite !lookup_attr_write_other in Hc'' by assumption.
  assert (c3 = c) by congruence. subst c3.
  rewrite lookup_attr_write_other in Hv2 by discriminate.
  rewrite !lookup_attr_write_other in Hv3 by discriminate.
  exists c, v1, v2, v3, tc'. auto 10.
Qed.

(** X2: a constructor that returns has done this, in this order, and nothing
    else: the base layer's constructor on the parameters given; with [p] the
    [self.params] it left, the assignment of [p.target_seq_len],
    [p.target_sos_id] and [p.target_eos_id] to the object [p.beam_search];
    the call of [self.CreateChild] with ['beam_search'] and that object; the
    assignment of the three values [p] has then to the object
    [p.target_sequence_sampler]; the call of [self.CreateChild] with
    ['target_sequence_sampler'] and that object.  It returns [None]. *)
Theorem constructor_steps h w self params r w' t :
  run h (BaseBeamSearchDecoder.__init__ self params) w = (Ok r, w', t) ->
  r = VNone /\
  exists r0 w1 p cb v1 v2 v3 create1 r1 w3 ct u1 u2 u3 create2 r2,
    h (ESuper "BaseBeamSearchDecoder" self "__init__" [params]) w =
      (Ok r0, w1) /\
    lookup_attr (heap w1) self "params" = Some p /\
    lookup_attr (heap w1) p "beam_search" = Some (VRef cb) /\
    lookup_attr (heap w1) p "target_seq_len" = Some v1 /\
    lookup_attr (heap w1) p "target_sos_id" = Some v2 /\
    lookup_attr (heap w1) p "target_eos_id" = Some v3 /\
    lookup_attr
      (write (write (write (heap w1) cb "target_seq_len" v1)
                cb "target_sos_id" v2) cb "target_eos_id" v3)
      self "CreateChild" = Some create1 /\
    h (ECall create1 [VStr "beam_search"; VRef cb])
      (mkWorld
         (write (write (write (heap w1) cb "target_seq_len" v1)
                   cb "target_sos_id" v2) cb "target_eos_id" v3)
         (ext w1)) = (Ok r1, w3) /\
    lookup_attr (heap w3) p "target_sequence_sampler" = Some (VRef ct) /\
    lookup_attr (heap w3) p "target_seq_len" = Some u1 /\
    lookup_attr (heap w3) p "target_sos_id" = Some u2 /\
    lookup_attr (heap w3) p "target_eos_id" = Some u3 /\
    lookup_attr
      (write (write (write (heap w3) ct "target_seq_len" u1)
                ct "target_sos_id" u2) ct "target_eos_id" u3)
      self "CreateChild" = Some create2 /\
    h (ECall create2 [VStr "target_sequence_sampler"; VRef ct])
      (mkWorld
         (write (write (write (heap w3) ct "target_seq_len" u1)
                   ct "target_sos_id" u2) ct "target_eos_id" u3)
         (ext w3)) = (Ok r2, w') /\
    t = [EvCall (ESuper "BaseBeamSearchDecoder" self "__init__" [params])
           (Ok r0);
         EvSet cb "target_seq_len" v1;
         EvSet cb "target_sos_id" v2;
         EvSet cb "target_eos_id" v3;
         EvCall (ECall create1 [VStr "beam_search"; VRef cb]) (Ok r1);
         EvSet ct "target_seq_len" u1;
         EvSet ct "target_sos_id" u2;
         EvSet ct "target_eos_id" u3;
         EvCall (ECall create2 [VStr "target_sequence_sampler"; VRef ct])
           (Ok r2)].
Proof.
  intros Hrun. unfold BaseBeamSearchDecoder.__init__ in Hrun.
  apply run_bind_Ok in Hrun as (r0 & w1 & t0 & t0' & Hsuper & Hrun & ->).
  apply run_call_Ok in Hsuper as (Hsuper & ->).
  apply run_bind_Ok in Hrun as (p & w1' & t1 & t1' & Hp & Hrun & ->).
  apply run_getattr_Ok in Hp as (Hp & -> & ->).
  apply run_copy_group_explicit in Hrun
    as (cb & v1 & v2 & v3 & t2 & Hcb & Hv1 & Hv2 & Hv3 & Hrun & ->);
    [|not_in_list].
  apply run_bind_Ok in Hrun as (cr & w2' & t3 & t3' & Hcr & Hrun & ->).
  apply run_getattr_Ok in Hcr as (Hcr & -> & ->).
  apply run_bind_Ok in Hrun as (bs & w2' & t4 & t4' & Hb & Hrun & ->).
  apply run_getattr_Ok in Hb as (Hb & -> & ->).
  simpl in Hcr, Hb.
  rewrite !lookup_attr_write_other in Hb by discriminate.
  assert (bs = VRef cb) as -> by congruence.
  apply run_bind_Ok in Hrun as (r1 & w3 & t5 & t5' & Hcall1 & Hrun & ->).
  apply run_call_Ok in Hcall1 as (Hcall1 & ->).
  apply run_copy_group_explicit in Hrun
    as (ct & u1 & u2 & u3 & t6 & Hct & Hu1 & Hu2 & Hu3 & Hrun & ->);
    [|not_in_list].
  apply run_bind_Ok in Hrun as (cr' & w4' & t7 & t7' & Hcr' & Hrun & ->).
  apply run_getattr_Ok in Hcr' as (Hcr' & -> & ->).
  apply run_bind_Ok in Hrun as (ts & w4' & t8 & t8' & Ht & Hrun & ->).
  apply run_getattr_Ok in Ht as (Ht & -> & ->).
  simpl in Hcr', Ht.
  rewrite !lookup_attr_write_other in Ht by discriminate.
  assert (ts = VRef ct) as -> by congruence.
  apply run_bind_Ok in Hrun as (r2 & w5 & t9 & t9' & Hcall2 & Hrun & ->).
  apply run_call_Ok in Hcall2 as (Hcall2 & ->).
  simpl in Hrun. injection Hrun as <- <- <-.
  split; [reflexivity|].
  exists r0, w1, p, cb, v1, v2, v3, cr, r1, w3, ct, u1, u2, u3, cr', r2.
  unfold BaseBeamSearchDecoder.qualname in Hsuper.
  repeat (split; [assumption|]). reflexivity.
Qed.


End ConstructorSteps.

(** ** The worlds the children are created in *)

Section CallSites.
Context {X : Type}.
Implicit Types (h : Handler X) (w : World X).








End CallSites.

(** ** The forward pass when the loss is not a pair, or not there *)

Section ForwardFailures.
Context {X : Type}.
Implicit Types (h : Handler X) (w : World X).

(** X5: [FProp] takes the result of [ComputeLoss] apart as a pair.  When
    [ComputeLoss] returns a tuple that has not two items, [FProp] raises
    [ValueError]; when it returns [None], a boolean or an integer, [FProp]
    raises [TypeError].  In both cases the two calls have been made and what
    they did stays done; no [DecoderOutput] is built. *)
Theorem FProp_loss_not_a_pair
    h w self theta encoder_outputs targets cp preds w1 cl loss w2 :
  lookup_attr (heap w) self "ComputePredictions" = Some cp ->
  h (ECall cp [theta; encoder_outputs; targets]) w = (Ok preds, w1) ->
  lookup_attr (heap w1) self "ComputeLoss" = Some cl ->
  h (ECall cl [theta; preds; targets]) w1 = (Ok loss, w2) ->
  ((exists l, loss = VTuple l /\ length l <> 2%nat) ->
   exists msg,
     run h (BaseDecoder.FProp self theta encoder_outputs targets) w =
     (Err (mkExn ValueError msg), w2,
      [EvCall (ECall cp [theta; encoder_outputs; targets]) (Ok preds);
       EvCall (ECall cl [theta; preds; targets]) (Ok loss)])) /\
  ((loss = VNone \/ (exists b, loss = VBool b) \/ (exists n, loss = VInt n)) ->
   exists msg,
     run h (BaseDecoder.FProp self theta encoder_outputs targets) w =
     (Err (mkExn TypeError msg), w2,
      [EvCall (ECall cp [theta; encoder_outputs; targets]) (Ok preds);
       EvCall (ECall cl [theta; preds; targets]) (Ok loss)])).
Proof.
  intros Hcp H1 Hcl H2.
  assert (Hrun : run h (BaseDecoder.FProp self theta encoder_outputs targets)
                   w =
                 let '(r, w', t) :=
                   run h ('(m, ps) ← unpack2 loss;
                          Ret (mkDecoderOutput m preds ps)) w2 in
                 (r, w',
                  EvCall (ECall cp [theta; encoder_outputs; targets])
                    (Ok preds)
                  :: EvCall (ECall cl [theta; preds; targets]) (Ok loss)
                  :: t)).
  { unfold BaseDecoder.FProp, dispatch, resolve. simpl.
    rewrite Hcp. simpl. rewrite H1. rewrite Hcl. simpl. rewrite H2.
    destruct (run h _ w2) as [[r w'] t]. reflexivity. }
  split.
  - intros (l & -> & Hlen). rewrite Hrun.
    destruct l as [|a [|b [|c l]]]; simpl; try (eexists; reflexivity).
    contradiction.
  - intros [->|[[b ->]|[n ->]]]; rewrite Hrun; simpl; eexists; reflexivity.
Qed.

(** X6: on a decoder that overrides [ComputePredictions] and not
    [ComputeLoss], [FProp] raises [NotImplementedError], but only after
    [ComputePredictions] has run: the call is in the trace and the world is
    the one it left. *)
Theorem FProp_without_ComputeLoss
    h w self theta encoder_outputs targets cp preds w1 :
  lookup_attr (heap w) self "ComputePredictions" = Some cp ->
  h (ECall cp [theta; encoder_outputs; targets]) w = (Ok preds, w1) ->
  lookup_attr (heap w1) self "ComputeLoss" = None ->
  is_instance (heap w1) self BaseDecoder.qualname = true ->
  run h (BaseDecoder.FProp self theta encoder_outputs targets) w =
  (Err (mkExn NotImplementedError
          ("Abstract method: " ++ type_str (heap w1) self)), w1,
   [EvCall (ECall cp [theta; encoder_outputs; targets]) (Ok preds)]).
Proof.
  intros Hcp H1 Hcl Hi.
  unfold BaseDecoder.FProp, dispatch, resolve. simpl.
  rewrite Hcp. simpl. rewrite H1. rewrite Hcl, Hi. reflexivity.
Qed.

End ForwardFailures.

(** ** Decoding with a decoder that lacks an attribute *)

Section MissingAttributes.
Context {X : Type}.
Implicit Types (h : Handler X) (w : World X).

(** X7: the module defines none of [_InitBeamSearchStateCallback],
    [_PreBeamSearchStepCallback] and [_PostBeamSearchStepCallback].  On a
    decoder that lacks one of them, or the [beam_search] child, or whose
    engine has no [BeamSearchDecode], [BeamSearchDecodeWithTheta] raises
    [AttributeError]; the engine is not called and nothing changes. *)
Theorem BeamSearchDecodeWithTheta_missing_attribute
    h w self theta encoder_outputs override :
  lookup_attr (heap w) self "beam_search" = None \/
  (exists engine,
      lookup_attr (heap w) self "beam_search" = Some engine /\
      lookup_attr (heap w) engine "BeamSearchDecode" = None) \/
  lookup_attr (heap w) self "_InitBeamSearchStateCallback" = None \/
  lookup_attr (heap w) self "_PreBeamSearchStepCallback" = None \/
  lookup_attr (heap w) self "_PostBeamSearchStepCallback" = None ->
  exists name,
    run h (BaseBeamSearchDecoder.BeamSearchDecodeWithTheta self theta
             encoder_outputs override) w =
    (Err (mkExn AttributeError name), w, []).
Proof.
  intros Hmiss. unfold BaseBeamSearchDecoder.BeamSearchDecodeWithTheta.
  simpl.
  destruct (lookup_attr (heap w) self "beam_search") as [engine|] eqn:He;
    simpl; [|eexists; reflexivity].
  destruct (lookup_attr (heap w) engine "BeamSearchDecode") as [d|] eqn:Hd;
    simpl; [|eexists; reflexivity].
  destruct (lookup_attr (heap w) self "_InitBeamSearchStateCallback")
    as [c1|] eqn:H1; simpl; [|eexists; reflexivity].
  destruct (lookup_attr (heap w) self "_PreBeamSearchStepCallback")
    as [c2|] eqn:H2; simpl; [|eexists; reflexivity].
  destruct (lookup_attr (heap w) self "_PostBeamSearchStepCallback")
    as [c3|] eqn:H3; simpl; [|eexists; reflexivity].
  destruct Hmiss as [H|[(e' & He' & H)|[H|[H|H]]]]; congruence.
Qed.

(** X8: the same of [SampleTargetSequences]: on a decoder that lacks one of
    the three callbacks, or the [target_sequence_sampler] child, or whose
    sampler has no [Sample], it raises [AttributeError]; the sampler is not
    called and nothing changes. *)
Theorem SampleTargetSequences_missing_attribute
    h w self theta encoder_outputs random_seed :
  lookup_attr (heap w) self "target_sequence_sampler" = None \/
  (exists sampler,
      lookup_attr (heap w) self "target_sequence_sampler" = Some sampler /\
      lookup_attr (heap w) sampler "Sample" = None) \/
  lookup_attr (heap w) self "_InitBeamSearchStateCallback" = None \/
  lookup_attr (heap w) self "_PreBeamSearchStepCallback" = None \/
  lookup_attr (heap w) self "_PostBeamSearchStepCallback" = None ->
  exists name,
    run h (BaseBeamSearchDecoder.SampleTargetSequences self theta
             encoder_outputs random_seed) w =
    (Err (mkExn AttributeError name), w, []).
Proof.
  intros Hmiss. unfold BaseBeamSearchDecoder.SampleTargetSequences.
  simpl.
  destruct (lookup_attr (heap w) self "target_sequence_sampler")
    as [sampler|] eqn:He; simpl; [|eexists; reflexivity].
  destruct (lookup_attr (heap w) sampler "Sample") as [d|] eqn:Hd;
    simpl; [|eexists; reflexivity].
  destruct (lookup_attr (heap w) self "_InitBeamSearchStateCallback")
    as [c1|] eqn:H1; simpl; [|eexists; reflexivity].
  destruct (lookup_attr (heap w) self "_PreBeamSearchStepCallback")
    as [c2|] eqn:H2; simpl; [|eexists; reflexivity].
  destruct (lookup_attr (heap w) self "_PostBeamSearchStepCallback")
    as [c3|] eqn:H3; simpl; [|eexists; reflexivity].
  destruct Hmiss as [H|[(e' & He' & H)|[H|[H|H]]]]; congruence.
Qed.

End MissingAttributes.

(** ** The parameter definitions *)

Section ParamsDefinitions.
Context {X : Type}.
Implicit Types (h : Handler X) (w : World X).

Lemma run_call_method_Ok h v name args w r w' t :
  run h (call_method v name args) w = (Ok r, w', t) ->
  exists f,
    lookup_attr (heap w) v name = Some f /\
    h (ECall f args) w = (Ok r, w') /\
    t = [EvCall (ECall f args) (Ok r)].
Proof.
  unfold call_method. intros Hrun.
  apply run_bind_Ok in Hrun as (f & w1 & t1 & t2 & Hf & Hrun & ->).
  apply run_getattr_Ok in Hf as (Hf & -> & ->).
  apply run_call_Ok in Hrun as (Hcall & ->).
  exists f. auto.
Qed.

(** X9: for a class [cls] in whose resolution order [BaseDecoder] follows
    [BaseBeamSearchDecoder] directly, [Params] of [BaseBeamSearchDecoder],
    when it returns, returns the very object [p] the base layer's [Params]
    gave, and on the way has made these calls and no other, in this order:
    the base layer's [Params]; [p.Define('packed_input', False, ...)];
    [p.Define('target_sos_id', 1, ...)]; [p.Define('target_eos_id', 2, ...)];
    [p.Define('target_seq_len', 0, ...)]; [BeamSearchHelper.Params()] and
    [p.Define('beam_search', ...)] of its result;
    [TargetSequenceSampler.Params()] and
    [p.Define('target_sequence_sampler', ...)] of its result.  Each callee is
    [p.Define] as it is when the call expression is evaluated, which for the
    last two is before the helper's [Params()] runs.  It assigns no attribute
    itself. *)
Theorem Params_definitions h w ty rest p w' t :
  BaseBeamSearchDecoder.after "BaseBeamSearchDecoder" (ty_mro ty) =
    Some ("BaseDecoder" :: rest) ->
  run h (BaseBeamSearchDecoder.Params (VClass ty)) w = (Ok p, w', t) ->
  exists w0 d0 a0 w1 d1 a1 w2 d2 a2 w3 d3 a3 w4 d4 bs w5 a4 w6 d5 ts w7 a5,
    h (ESuper "BaseDecoder" (VClass ty) "Params" []) w = (Ok p, w0) /\
    lookup_attr (heap w0) p "Define" = Some d0 /\
    h (ECall d0
         [VStr "packed_input"; VBool false;
          VStr ("If True, decoder and all layers support " ++
                "multiple examples in a single sequence.")]) w0 =
      (Ok a0, w1) /\
    lookup_attr (heap w1) p "Define" = Some d1 /\
    h (ECall d1
         [VStr "target_sos_id"; VInt 1;
          VStr "Id of the target sequence sos symbol."]) w1 = (Ok a1, w2) /\
    lookup_attr (heap w2) p "Define" = Some d2 /\
    h (ECall d2
         [VStr "target_eos_id"; VInt 2;
          VStr "Id of the target sequence eos symbol."]) w2 = (Ok a2, w3) /\
    lookup_attr (heap w3) p "Define" = Some d3 /\
    h (ECall d3
         [VStr "target_seq_len"; VInt 0; VStr "Target seq length."]) w3 =
      (Ok a3, w4) /\
    lookup_attr (heap w4) p "Define" = Some d4 /\
    h (EStatic "beam_search_helper.BeamSearchHelper.Params" []) w4 =
      (Ok bs, w5) /\
    h (ECall d4 [VStr "beam_search"; bs; VStr "BeamSearchHelper params."])
      w5 = (Ok a4, w6) /\
    lookup_attr (heap w6) p "Define" = Some d5 /\
    h (EStatic "target_sequence_sampler.TargetSequenceSampler.Params" [])
      w6 = (Ok ts, w7) /\
    h (ECall d5
         [VStr "target_sequence_sampler"; ts;
          VStr "TargetSequenceSampler params."]) w7 = (Ok a5, w') /\
    t = [EvCall (ESuper "BaseDecoder" (VClass ty) "Params" []) (Ok p);
         EvCall (ECall d0
                   [VStr "packed_input"; VBool false;
                    VStr ("If True, decoder and all layers support " ++
                          "multiple examples in a single sequence.")])
           (Ok a0);
         EvCall (ECall d1
                   [VStr "target_sos_id"; VInt 1;
                    VStr "Id of the target sequence sos symbol."]) (Ok a1);
         EvCall (ECall d2
                   [VStr "target_eos_id"; VInt 2;
                    VStr "Id of the target sequence eos symbol."]) (Ok a2);
         EvCall (ECall d3
                   [VStr "target_seq_len"; VInt 0;
                    VStr "Target seq length."]) (Ok a3);
         EvCall (EStatic "beam_search_helper.BeamSearchHelper.Params" [])
           (Ok bs);
         EvCall (ECall d4
                   [VStr "beam_search"; bs; VStr "BeamSearchHelper params."])
           (Ok a4);
         EvCall (EStatic
                   "target_sequence_sampler.TargetSequenceSampler.Params" [])
           (Ok ts);
         EvCall (ECall d5
                   [VStr "target_sequence_sampler"; ts;
                    VStr "TargetSequenceSampler params."]) (Ok a5)].
Proof.
  intros Hmro Hrun.
  assert (Hsup : BaseBeamSearchDecoder.super_Params (VClass ty) =
                 BaseDecoder.Params (VClass ty)).
  { unfold BaseBeamSearchDecoder.super_Params,
      BaseBeamSearchDecoder.qualname. rewrite Hmro. reflexivity. }
  unfold BaseBeamSearchDecoder.Params in Hrun. rewrite Hsup in Hrun.
  clear Hsup. unfold BaseDecoder.Params, BaseDecoder.qualname in Hrun.
  apply run_bind_Ok in Hrun as (p0 & wa & ta & ta' & Hbase & Hrun & ->).
  apply run_bind_Ok in Hbase as (q & w0 & tb & tb' & Hsuper & Hbase & ->).
  apply run_call_Ok in Hsuper as (Hsuper & ->).
  apply run_bind_Ok in Hbase as (a0 & w1 & tc & tc' & Hd0 & Hbase & ->).
  apply run_call_method_Ok in Hd0 as (d0 & Hl0 & Hd0 & ->).
  simpl in Hbase. injection Hbase as -> -> <-.
  apply run_bind_Ok in Hrun as (a1 & w2 & t1 & t1' & Hd1 & Hrun & ->).
  apply run_call_method_Ok in Hd1 as (d1 & Hl1 & Hd1 & ->).
  apply run_bind_Ok in Hrun as (a2 & w3 & t2 & t2' & Hd2 & Hrun & ->).
  apply run_call_method_Ok in Hd2 as (d2 & Hl2 & Hd2 & ->).
  apply run_bind_Ok in Hrun as (a3 & w4 & t3 & t3' & Hd3 & Hrun & ->).
  apply run_call_method_Ok in Hd3 as (d3 & Hl3 & Hd3 & ->).
  apply run_bind_Ok in Hrun as (d4 & w4' & t4 & t4' & Hg4 & Hrun & ->).
  apply run_getattr_Ok in Hg4 as (Hl4 & -> & ->).
  apply run_bind_Ok in Hrun as (bs & w5 & t5 & t5' & Hbs & Hrun & ->).
  apply run_call_Ok in Hbs as (Hbs & ->).
  apply run_bind_Ok in Hrun as (a4 & w6 & t6 & t6' & Hd4 & Hrun & ->).
  apply run_call_Ok in Hd4 as (Hd4 & ->).
  apply run_bind_Ok in Hrun as (d5 & w6' & t7 & t7' & Hg5 & Hrun & ->).
  apply run_getattr_Ok in Hg5 as (Hl5 & -> & ->).
  apply run_bind_Ok in Hrun as (ts & w7 & t8 & t8' & Hts & Hrun & ->).
  apply run_call_Ok in Hts as (Hts & ->).
  apply run_bind_Ok in Hrun as (a5 & w8 & t9 & t9' & Hd5 & Hrun & ->).
  apply run_call_Ok in Hd5 as (Hd5 & ->).
  simpl in Hrun. injection Hrun as <- <- <-.
  exists w0, d0, a0, wa, d1, a1, w2, d2, a2, w3, d3, a3, w4, d4, bs, w5, a4,
    w6, d5, ts, w7, a5.
  repeat (split; [assumption|]). reflexivity.
Qed.

(** X10: for a class [cls] in whose resolution order [BaseDecoder] follows
    [BaseBeamSearchDecoder] directly, with a [Define] that gives the
    parameters the field it names, and code outside the module that leaves
    the attributes that are there as they are, the parameters [Params] of
    [BaseBeamSearchDecoder] returns hold [packed_input = False],
    [target_sos_id = 1], [target_eos_id = 2], [target_seq_len = 0], and as
    [beam_search] and [target_sequence_sampler]
    what [BeamSearchHelper.Params()] and [TargetSequenceSampler.Params()]
    returned. *)
Theorem Params_defaults h w ty rest p w' t :
  BaseBeamSearchDecoder.after "BaseBeamSearchDecoder" (ty_mro ty) =
    Some ("BaseDecoder" :: rest) ->
  defines h ->
  monotone h ->
  run h (BaseBeamSearchDecoder.Params (VClass ty)) w = (Ok p, w', t) ->
  lookup_attr (heap w') p "packed_input" = Some (VBool false) /\
  lookup_attr (heap w') p "target_sos_id" = Some (VInt 1) /\
  lookup_attr (heap w') p "target_eos_id" = Some (VInt 2) /\
  lookup_attr (heap w') p "target_seq_len" = Some (VInt 0) /\
  exists bs ts,
    lookup_attr (heap w') p "beam_search" = Some bs /\
    lookup_attr (heap w') p "target_sequence_sampler" = Some ts /\
    (EStatic "beam_search_helper.BeamSearchHelper.Params" [], Ok bs)
      ∈ calls t /\
    (EStatic "target_sequence_sampler.TargetSequenceSampler.Params" [],
     Ok ts) ∈ calls t.
Proof.
  intros Hmro Hdef Hmono.
  assert (Hsup : BaseBeamSearchDecoder.super_Params (VClass ty) =
                 BaseDecoder.Params (VClass ty)).
  { unfold BaseBeamSearchDecoder.super_Params,
      BaseBeamSearchDecoder.qualname. rewrite Hmro. reflexivity. }
  assert (Hstep : forall e wa r wb o a v,
             h e wa = (r, wb) ->
             lookup_attr (heap wa) o a = Some v ->
             lookup_attr (heap wb) o a = Some v).
  { intros e wa r wb o a v He Hv. pose proof (Hmono e wa o a v Hv) as Hm.
    rewrite He in Hm. exact Hm. }
  unfold BaseBeamSearchDecoder.Params. rewrite Hsup. clear Hsup.
  unfold BaseDecoder.Params, BaseDecoder.qualname.
  intros Hrun.
  apply run_bind_Ok in Hrun as (p0 & wa & ta & ta' & Hbase & Hrun & ->).
  apply run_bind_Ok in Hbase as (q & wb & tb & tb' & Hsuper & Hbase & ->).
  apply run_call_Ok in Hsuper as (Hsuper & ->).
  apply run_bind_Ok in Hbase as (a0 & wc & tc & tc' & Hd0 & Hbase & ->).
  apply run_call_method_Ok in Hd0 as (d0 & Hl0 & Hd0 & ->).
  simpl in Hbase. injection Hbase as -> -> <-.
  apply run_bind_Ok in Hrun as (a1 & w1 & t1 & t1' & Hd1 & Hrun & ->).
  apply run_call_method_Ok in Hd1 as (d1 & Hl1 & Hd1 & ->).
  apply run_bind_Ok in Hrun as (a2 & w2 & t2 & t2' & Hd2 & Hrun & ->).
  apply run_call_method_Ok in Hd2 as (d2 & Hl2 & Hd2 & ->).
  apply run_bind_Ok in Hrun as (a3 & w3 & t3 & t3' & Hd3 & Hrun & ->).
  apply run_call_method_Ok in Hd3 as (d3 & Hl3 & Hd3 & ->).
  apply run_bind_Ok in Hrun as (d4 & w3' & t4 & t4' & Hg4 & Hrun & ->).
  apply run_getattr_Ok in Hg4 as (Hl4 & -> & ->).
  apply run_bind_Ok in Hrun as (bs & w4 & t5 & t5' & Hbs & Hrun & ->).
  apply run_call_Ok in Hbs as (Hbs & ->).
  apply run_bind_Ok in Hrun as (a4 & w5 & t6 & t6' & Hd4 & Hrun & ->).
  apply run_call_Ok in Hd4 as (Hd4 & ->).
  apply run_bind_Ok in Hrun as (d5 & w5' & t7 & t7' & Hg5 & Hrun & ->).
  apply run_getattr_Ok in Hg5 as (Hl5 & -> & ->).
  apply run_bind_Ok in Hrun as (ts & w6 & t8 & t8' & Hts & Hrun & ->).
  apply run_call_Ok in Hts as (Hts & ->).
  apply run_bind_Ok in Hrun as (a5 & w7 & t9 & t9' & Hd5 & Hrun & ->).
  apply run_call_Ok in Hd5 as (Hd5 & ->).
  simpl in Hrun. injection Hrun as <- <- <-.
  (* the Define of the helper parameters is the one looked up before the
     helper's Params() ran *)
  pose proof (Hdef _ _ _ _ _ _ _ _ Hl0 Hd0) as F0.
  pose proof (Hdef _ _ _ _ _ _ _ _ Hl1 Hd1) as F1.
  pose proof (Hdef _ _ _ _ _ _ _ _ Hl2 Hd2) as F2.
  pose proof (Hdef _ _ _ _ _ _ _ _ Hl3 Hd3) as F3.
  pose proof (Hdef _ _ _ _ _ _ _ _ (Hstep _ _ _ _ _ _ _ Hbs Hl4) Hd4) as F4.
  pose proof (Hdef _ _ _ _ _ _ _ _ (Hstep _ _ _ _ _ _ _ Hts Hl5) Hd5) as F5.
  repeat split.
  - eauto 10.
  - eauto 10.
  - eauto 10.
  - eauto 10.
  - exists bs, ts. split; [eauto 10|]. split; [exact F5|].
    split; simpl; set_solver.
Qed.

End ParamsDefinitions.

(** ** The properties on concrete environments *)

Section ToyChecks.


Lemma unshadowed_lookup (hp : Heap) l f :
  ToyParams.unshadowed hp = true ->
  lookup_attr hp (VRef l) "Define" = Some f ->
  f = VBound l "Define".
Proof.
  intros Hun Hf. unfold lookup_attr in Hf.
  destruct (hp !! l) as [o|] eqn:Hl; [|discriminate].
  unfold ToyParams.unshadowed in Hun.
  rewrite forallb_forall in Hun.
  assert (Hin : In (l, o) (map_to_list hp)).
  { apply list_elem_of_In, elem_of_map_to_list. exact Hl. }
  specialize (Hun _ Hin). simpl in Hun.
  destruct (ob_attrs o !! "Define"); [discriminate|].
  destruct (bool_decide _); congruence.
Qed.

Lemma toyparams_defines : defines ToyParams.handler.
Proof.
  intros p f name value doc w r w1 Hl Hcall.
  unfold ToyParams.handler in Hcall.
  destruct f as [| | | | | | |q m]; try discriminate.
  destruct (String.eqb_spec m "Define") as [->|]; [|discriminate].
  destruct (ToyParams.unshadowed (heap w)) eqn:Hun; [|discriminate].
  simpl in Hcall.
  destruct (lookup_attr (heap w) (VRef q) name); [discriminate|].
  destruct (heap w !! q) as [o|] eqn:Hq; [|discriminate].
  injection Hcall as _ <-. simpl.
  assert (p = VRef q) as ->.
  { destruct p; try (unfold lookup_attr in Hl; discriminate).
    pose proof (unshadowed_lookup (heap w) l _ Hun Hl) as Hb.
    congruence. }
  apply lookup_attr_write_hit. rewrite Hq. eauto.
Qed.

Lemma toyparams_monotone : monotone ToyParams.handler.
Proof.
  intros e w o a v Hv.
  assert (Hfresh : forall attrs,
             lookup_attr (heap (ToyParams.fresh_params attrs w).2) o a =
             Some v).
  { intros attrs. unfold ToyParams.fresh_params.
    destruct (heap w !! ext w) eqn:Hf; simpl; [exact Hv|].
    apply lookup_attr_insert_fresh; assumption. }
  unfold ToyParams.handler.
  destruct e as [f args|c s name args|path args|x]; simpl; try exact Hv.
  - destruct f as [| | | | | | |q m]; try exact Hv.
    destruct args as [|[]]; try exact Hv.
    destruct args as [|value [|[] []]]; try exact Hv.
    destruct (String.eqb m "Define" && ToyParams.unshadowed (heap w));
      [|exact Hv].
    destruct (lookup_attr (heap w) (VRef q) s) eqn:Hnone; [exact Hv|].
    destruct (heap w !! q); [|exact Hv]. simpl.
    destruct o as [| | | | | |l'|]; try discriminate.
    destruct (decide (l' = q)) as [->|Hne].
    + apply lookup_attr_write_persist; [exact Hv|]. intros ->. congruence.
    + rewrite lookup_attr_write_ne_obj by congruence. exact Hv.
  - destruct args; [|exact Hv].
    destruct (String.eqb name "Params"); [apply Hfresh|exact Hv].
  - destruct args; [apply Hfresh|exact Hv].
Qed.

End ToyChecks.

Lemma constructor_steps_witness :
  run Toy.handler (BaseBeamSearchDecoder.__init__ Toy.self Toy.params)
    Toy.world0 = (Ok VNone, Toy.world1, Toy.trace1) /\
  VNone = VNone /\
  exists r0 w1 p cb v1 v2 v3 create1 r1 w3 ct u1 u2 u3 create2 r2,
    Toy.handler
      (ESuper "BaseBeamSearchDecoder" Toy.self "__init__" [Toy.params])
      Toy.world0 = (Ok r0, w1) /\
    lookup_attr (heap w1) Toy.self "params" = Some p /\
    lookup_attr (heap w1) p "beam_search" = Some (VRef cb) /\
    lookup_attr (heap w1) p "target_seq_len" = Some v1 /\
    lookup_attr (heap w1) p "target_sos_id" = Some v2 /\
    lookup_attr (heap w1) p "target_eos_id" = Some v3 /\
    lookup_attr
      (write (write (write (heap w1) cb "target_seq_len" v1)
                cb "target_sos_id" v2) cb "target_eos_id" v3)
      Toy.self "CreateChild" = Some create1 /\
    Toy.handler (ECall create1 [VStr "beam_search"; VRef cb])
      (mkWorld
         (write (write (write (heap w1) cb "target_seq_len" v1)
                   cb "target_sos_id" v2) cb "target_eos_id" v3)
         (ext w1)) = (Ok r1, w3) /\
    lookup_attr (heap w3) p "target_sequence_sampler" = Some (VRef ct) /\
    lookup_attr (heap w3) p "target_seq_len" = Some u1 /\
    lookup_attr (heap w3) p "target_sos_id" = Some u2 /\
    lookup_attr (heap w3) p "target_eos_id" = Some u3 /\
    lookup_attr
      (write (write (write (heap w3) ct "target_seq_len" u1)
                ct "target_sos_id" u2) ct "target_eos_id" u3)
      Toy.self "CreateChild" = Some create2 /\
    Toy.handler (ECall create2 [VStr "target_sequence_sampler"; VRef ct])
      (mkWorld
         (write (write (write (heap w3) ct "target_seq_len" u1)
                   ct "target_sos_id" u2) ct "target_eos_id" u3)
         (ext w3)) = (Ok r2, Toy.world1) /\
    Toy.trace1 =
        [EvCall
           (ESuper "BaseBeamSearchDecoder" Toy.self "__init__" [Toy.params])
           (Ok r0);
         EvSet cb "target_seq_len" v1;
         EvSet cb "target_sos_id" v2;
         EvSet cb "target_eos_id" v3;
         EvCall (ECall create1 [VStr "beam_search"; VRef cb]) (Ok r1);
         EvSet ct "target_seq_len" u1;
         EvSet ct "target_sos_id" u2;
         EvSet ct "target_eos_id" u3;
         EvCall (ECall create2 [VStr "target_sequence_sampler"; VRef ct])
           (Ok r2)].
Proof.
  assert (Hrun : run Toy.handler
                   (BaseBeamSearchDecoder.__init__ Toy.self Toy.params)
                   Toy.world0 = (Ok VNone, Toy.world1, Toy.trace1))
    by (vm_compute; reflexivity).
  split; [exact Hrun|].
  exact (constructor_steps Toy.handler Toy.world0 Toy.self Toy.params VNone
           Toy.world1 Toy.trace1 Hrun).
Defined.



Lemma FProp_loss_not_a_pair_witness :
  lookup_attr (heap Toy.world1) Toy.self "ComputePredictions" =
    Some (VBound 1 "ComputePredictions") /\
  lookup_attr (heap Toy.world1) Toy.self "ComputeLoss" =
    Some (VBound 1 "ComputeLoss") /\
  (forall loss,
      ToyFailures.loss_handler loss
        (ECall (VBound 1 "ComputePredictions")
           [Toy.theta; Toy.encoder_outputs; Toy.targets]) Toy.world1 =
      (Ok (VTuple [VStr "logits"; Toy.encoder_outputs]), Toy.world1) /\
      ToyFailures.loss_handler loss
        (ECall (VBound 1 "ComputeLoss")
           [Toy.theta; VTuple [VStr "logits"; Toy.encoder_outputs];
            Toy.targets]) Toy.world1 = (Ok loss, Toy.world1)) /\
  (exists msg,
      run (ToyFailures.loss_handler (VTuple [VInt 1; VInt 2; VInt 3]))
        (BaseDecoder.FProp Toy.self Toy.theta Toy.encoder_outputs
           Toy.targets) Toy.world1 =
      (Err (mkExn ValueError msg), Toy.world1,
       [EvCall (ECall (VBound 1 "ComputePredictions")
                  [Toy.theta; Toy.encoder_outputs; Toy.targets])
          (Ok (VTuple [VStr "logits"; Toy.encoder_outputs]));
        EvCall (ECall (VBound 1 "ComputeLoss")
                  [Toy.theta; VTuple [VStr "logits"; Toy.encoder_outputs];
                   Toy.targets])
          (Ok (VTuple [VInt 1; VInt 2; VInt 3]))])) /\
  (exists msg,
      run (ToyFailures.loss_handler VNone)
        (BaseDecoder.FProp Toy.self Toy.theta Toy.encoder_outputs
           Toy.targets) Toy.world1 =
      (Err (mkExn TypeError msg), Toy.world1,
       [EvCall (ECall (VBound 1 "ComputePredictions")
                  [Toy.theta; Toy.encoder_outputs; Toy.targets])
          (Ok (VTuple [VStr "logits"; Toy.encoder_outputs]));
        EvCall (ECall (VBound 1 "ComputeLoss")
                  [Toy.theta; VTuple [VStr "logits"; Toy.encoder_outputs];
                   Toy.targets]) (Ok VNone)])).
Proof.
  assert (H1 : lookup_attr (heap Toy.world1) Toy.self "ComputePredictions" =
               Some (VBound 1 "ComputePredictions"))
    by (vm_compute; reflexivity).
  assert (H2 : lookup_attr (heap Toy.world1) Toy.self "ComputeLoss" =
               Some (VBound 1 "ComputeLoss")) by (vm_compute; reflexivity).
  assert (H3 : forall loss,
             ToyFailures.loss_handler loss
               (ECall (VBound 1 "ComputePredictions")
                  [Toy.theta; Toy.encoder_outputs; Toy.targets])
               Toy.world1 =
             (Ok (VTuple [VStr "logits"; Toy.encoder_outputs]), Toy.world1) /\
             ToyFailures.loss_handler loss
               (ECall (VBound 1 "ComputeLoss")
                  [Toy.theta; VTuple [VStr "logits"; Toy.encoder_outputs];
                   Toy.targets]) Toy.world1 = (Ok loss, Toy.world1)).
  { intros loss. split; reflexivity. }
  repeat (split; [assumption|]).
  split.
  - destruct (H3 (VTuple [VInt 1; VInt 2; VInt 3])) as [Ha Hb].
    apply (proj1 (FProp_loss_not_a_pair _ _ _ _ _ _ _ _ _ _ _ _
                    H1 Ha H2 Hb)).
    exists [VInt 1; VInt 2; VInt 3]. split; [reflexivity|].
    simpl. discriminate.
  - destruct (H3 VNone) as [Ha Hb].
    apply (proj2 (FProp_loss_not_a_pair _ _ _ _ _ _ _ _ _ _ _ _
                    H1 Ha H2 Hb)).
    left. reflexivity.
Defined.

Lemma FProp_without_ComputeLoss_witness :
  lookup_attr (heap ToyFailures.half_world) (VRef 1) "ComputePredictions" =
    Some (VBound 1 "ComputePredictions") /\
  Toy.handler
    (ECall (VBound 1 "ComputePredictions")
       [Toy.theta; Toy.encoder_outputs; Toy.targets])
    ToyFailures.half_world =
    (Ok (VTuple [VStr "logits"; Toy.encoder_outputs]),
     ToyFailures.half_world) /\
  lookup_attr (heap ToyFailures.half_world) (VRef 1) "ComputeLoss" = None /\
  is_instance (heap ToyFailures.half_world) (VRef 1) BaseDecoder.qualname =
    true /\
  run Toy.handler
    (BaseDecoder.FProp (VRef 1) Toy.theta Toy.encoder_outputs Toy.targets)
    ToyFailures.half_world =
  (Err (mkExn NotImplementedError
          ("Abstract method: " ++
           type_str (heap ToyFailures.half_world) (VRef 1))),
   ToyFailures.half_world,
   [EvCall (ECall (VBound 1 "ComputePredictions")
              [Toy.theta; Toy.encoder_outputs; Toy.targets])
      (Ok (VTuple [VStr "logits"; Toy.encoder_outputs]))]).
Proof.
  assert (H1 : lookup_attr (heap ToyFailures.half_world) (VRef 1)
                 "ComputePredictions" = Some (VBound 1 "ComputePredictions"))
    by (vm_compute; reflexivity).
  assert (H2 : Toy.handler
                 (ECall (VBound 1 "ComputePredictions")
                    [Toy.theta; Toy.encoder_outputs; Toy.targets])
                 ToyFailures.half_world =
               (Ok (VTuple [VStr "logits"; Toy.encoder_outputs]),
                ToyFailures.half_world)) by (vm_compute; reflexivity).
  assert (H3 : lookup_attr (heap ToyFailures.half_world) (VRef 1)
                 "ComputeLoss" = None) by (vm_compute; reflexivity).
  assert (H4 : is_instance (heap ToyFailures.half_world) (VRef 1)
                 BaseDecoder.qualname = true) by (vm_compute; reflexivity).
  repeat (split; [assumption|]).
  exact (FProp_without_ComputeLoss Toy.handler ToyFailures.half_world
           (VRef 1) Toy.theta Toy.encoder_outputs Toy.targets _ _ _
           H1 H2 H3 H4).
Defined.

Lemma BeamSearchDecodeWithTheta_missing_attribute_witness :
  lookup_attr (heap Toy.world1) Toy.bare "beam_search" = None /\
  exists name,
    run Toy.handler
      (BaseBeamSearchDecoder.BeamSearchDecodeWithTheta Toy.bare Toy.theta
         Toy.encoder_outputs None) Toy.world1 =
    (Err (mkExn AttributeError name), Toy.world1, []).
Proof.
  assert (H1 : lookup_attr (heap Toy.world1) Toy.bare "beam_search" = None)
    by (vm_compute; reflexivity).
  split; [exact H1|].
  exact (BeamSearchDecodeWithTheta_missing_attribute Toy.handler Toy.world1
           Toy.bare Toy.theta Toy.encoder_outputs None (or_introl H1)).
Defined.

Lemma SampleTargetSequences_missing_attribute_witness :
  lookup_attr (heap Toy.world1) Toy.bare "target_sequence_sampler" = None /\
  exists name,
    run Toy.handler
      (BaseBeamSearchDecoder.SampleTargetSequences Toy.bare Toy.theta
         Toy.encoder_outputs (VInt 5)) Toy.world1 =
    (Err (mkExn AttributeError name), Toy.world1, []).
Proof.
  assert (H1 : lookup_attr (heap Toy.world1) Toy.bare
                 "target_sequence_sampler" = None)
    by (vm_compute; reflexivity).
  split; [exact H1|].
  exact (SampleTargetSequences_missing_attribute Toy.handler Toy.world1
           Toy.bare Toy.theta Toy.encoder_outputs (VInt 5) (or_introl H1)).
Defined.

Lemma Params_definitions_witness :
  BaseBeamSearchDecoder.after "BaseBeamSearchDecoder"
    (ty_mro Toy.decoder_type) = Some ("BaseDecoder" :: ["BaseLayer"]) /\
  run ToyParams.handler (BaseBeamSearchDecoder.Params ToyParams.cls)
    ToyParams.world0 = (Ok (VRef 1), ToyParams.world1, ToyParams.trace1) /\
  exists w0 d0 a0 w1 d1 a1 w2 d2 a2 w3 d3 a3 w4 d4 bs w5 a4 w6 d5 ts w7 a5,
    ToyParams.handler (ESuper "BaseDecoder" ToyParams.cls "Params" []) ToyParams.world0 =
      (Ok (VRef 1), w0) /\
    lookup_attr (heap w0) (VRef 1) "Define" = Some d0 /\
    ToyParams.handler (ECall d0
         [VStr "packed_input"; VBool false;
          VStr ("If True, decoder and all layers support " ++
                "multiple examples in a single sequence.")]) w0 =
      (Ok a0, w1) /\
    lookup_attr (heap w1) (VRef 1) "Define" = Some d1 /\
    ToyParams.handler (ECall d1
         [VStr "target_sos_id"; VInt 1;
          VStr "Id of the target sequence sos symbol."]) w1 = (Ok a1, w2) /\
    lookup_attr (heap w2) (VRef 1) "Define" = Some d2 /\
    ToyParams.handler (ECall d2
         [VStr "target_eos_id"; VInt 2;
          VStr "Id of the target sequence eos symbol."]) w2 = (Ok a2, w3) /\
    lookup_attr (heap w3) (VRef 1) "Define" = Some d3 /\
    ToyParams.handler (ECall d3
         [VStr "target_seq_len"; VInt 0; VStr "Target seq length."]) w3 =
      (Ok a3, w4) /\
    lookup_attr (heap w4) (VRef 1) "Define" = Some d4 /\
    ToyParams.handler (EStatic "beam_search_helper.BeamSearchHelper.Params" []) w4 =
      (Ok bs, w5) /\
    ToyParams.handler (ECall d4 [VStr "beam_search"; bs; VStr "BeamSearchHelper params."])
      w5 = (Ok a4, w6) /\
    lookup_attr (heap w6) (VRef 1) "Define" = Some d5 /\
    ToyParams.handler (EStatic "target_sequence_sampler.TargetSequenceSampler.Params" [])
      w6 = (Ok ts, w7) /\
    ToyParams.handler (ECall d5
         [VStr "target_sequence_sampler"; ts;
          VStr "TargetSequenceSampler params."]) w7 = (Ok a5, ToyParams.world1) /\
    ToyParams.trace1 =
        [EvCall (ESuper "BaseDecoder" ToyParams.cls "Params" []) (Ok (VRef 1));
         EvCall (ECall d0
                   [VStr "packed_input"; VBool false;
                    VStr ("If True, decoder and all layers support " ++
                          "multiple examples in a single sequence.")])
           (Ok a0);
         EvCall (ECall d1
                   [VStr "target_sos_id"; VInt 1;
                    VStr "Id of the target sequence sos symbol."]) (Ok a1);
         EvCall (ECall d2
                   [VStr "target_eos_id"; VInt 2;
                    VStr "Id of the target sequence eos symbol."]) (Ok a2);
         EvCall (ECall d3
                   [VStr "target_seq_len"; VInt 0;
                    VStr "Target seq length."]) (Ok a3);
         EvCall (EStatic "beam_search_helper.BeamSearchHelper.Params" [])
           (Ok bs);
         EvCall (ECall d4
                   [VStr "beam_search"; bs; VStr "BeamSearchHelper params."])
           (Ok a4);
         EvCall (EStatic
                   "target_sequence_sampler.TargetSequenceSampler.Params" [])
           (Ok ts);
         EvCall (ECall d5
                   [VStr "target_sequence_sampler"; ts;
                    VStr "TargetSequenceSampler params."]) (Ok a5)].
Proof.
  assert (Hmro : BaseBeamSearchDecoder.after "BaseBeamSearchDecoder"
                   (ty_mro Toy.decoder_type) =
                 Some ("BaseDecoder" :: ["BaseLayer"])) by reflexivity.
  assert (Hrun : run ToyParams.handler
                   (BaseBeamSearchDecoder.Params ToyParams.cls)
                   ToyParams.world0 =
                 (Ok (VRef 1), ToyParams.world1, ToyParams.trace1))
    by (vm_compute; reflexivity).
  split; [exact Hmro|]. split; [exact Hrun|].
  exact (Params_definitions ToyParams.handler ToyParams.world0
           Toy.decoder_type ["BaseLayer"] (VRef 1) ToyParams.world1
           ToyParams.trace1 Hmro Hrun).
Defined.

Lemma Params_defaults_witness :
  BaseBeamSearchDecoder.after "BaseBeamSearchDecoder"
    (ty_mro Toy.decoder_type) = Some ("BaseDecoder" :: ["BaseLayer"]) /\
  defines ToyParams.handler /\
  monotone ToyParams.handler /\
  run ToyParams.handler (BaseBeamSearchDecoder.Params ToyParams.cls)
    ToyParams.world0 = (Ok (VRef 1), ToyParams.world1, ToyParams.trace1) /\
  lookup_attr (heap ToyParams.world1) (VRef 1) "packed_input" =
    Some (VBool false) /\
  lookup_attr (heap ToyParams.world1) (VRef 1) "target_sos_id" =
    Some (VInt 1) /\
  lookup_attr (heap ToyParams.world1) (VRef 1) "target_eos_id" =
    Some (VInt 2) /\
  lookup_attr (heap ToyParams.world1) (VRef 1) "target_seq_len" =
    Some (VInt 0) /\
  exists bs ts,
    lookup_attr (heap ToyParams.world1) (VRef 1) "beam_search" = Some bs /\
    lookup_attr (heap ToyParams.world1) (VRef 1) "target_sequence_sampler" =
      Some ts /\
    (EStatic "beam_search_helper.BeamSearchHelper.Params" [], Ok bs)
      ∈ calls ToyParams.trace1 /\
    (EStatic "target_sequence_sampler.TargetSequenceSampler.Params" [],
     Ok ts) ∈ calls ToyParams.trace1.
Proof.
  assert (Hrun : run ToyParams.handler
                   (BaseBeamSearchDecoder.Params ToyParams.cls)
                   ToyParams.world0 =
                 (Ok (VRef 1), ToyParams.world1, ToyParams.trace1))
    by (vm_compute; reflexivity).
  assert (Hmro : BaseBeamSearchDecoder.after "BaseBeamSearchDecoder"
                   (ty_mro Toy.decoder_type) =
                 Some ("BaseDecoder" :: ["BaseLayer"])) by reflexivity.
  split; [exact Hmro|].
  split; [exact toyparams_defines|].
  split; [exact toyparams_monotone|].
  split; [exact Hrun|].
  exact (Params_defaults ToyParams.handler ToyParams.world0 Toy.decoder_type
           ["BaseLayer"] (VRef 1) ToyParams.world1 ToyParams.trace1
           Hmro toyparams_defines toyparams_monotone Hrun).
Defined.
